(** * RGB colourspace visuals

    A shallow embedding of [colour_analysis/visuals/rgb_colourspace.py]:
    the three constructors [RGB_identity_cube],
    [RGB_colourspace_volume_visual] and [RGB_colourspace_triangle_visual].

    The module is glue code over NumPy, vispy and colour.  The embedding
    keeps what the module itself does (the order of the calls, the in-place
    array updates, the aliasing of arrays between meshes, the exceptions it
    lets through) and takes the library routines it calls as parameters of
    a section. *)

From Stdlib Require Import ZArith QArith Lia Floats.SpecFloat.
From stdpp Require Import base list strings gmap.

Local Open Scope Z_scope.
Local Open Scope list_scope.

(** ** NumPy numbers

    Array elements are IEEE 754 values, in the Standard Library's
    specification of binary floating point. *)

Abbreviation float := spec_float.

(** [numpy.isnan] on one element. *)
Definition isnan (x : float) : bool :=
  match x with
  | S754_nan => true
  | _ => false
  end.

(** [numpy.isfinite] on one element. *)
Definition isfinite (x : float) : bool :=
  match x with
  | S754_zero _ | S754_finite _ _ _ => true
  | S754_infinity _ | S754_nan => false
  end.

(** The integer literal [0] stored into a float array. *)
Definition fzero : float := S754_zero false.

(** The value [m * 2^e] of a finite float, as a rational. *)
Definition F2Q (s : bool) (m : positive) (e : Z) : Q :=
  let v := match e with
           | Zneg p => Qmake (Zpos m) (2 ^ p)
           | _ => inject_Z (Zpos m * 2 ^ e)
           end in
  if s then Qopp v else v.

(** The rational value of a float; [None] for NaN and the infinities. *)
Definition SF2Q (x : float) : option Q :=
  match x with
  | S754_zero _ => Some 0%Q
  | S754_finite s m e => Some (F2Q s m e)
  | S754_infinity _ | S754_nan => None
  end.

(** [within lo hi x]: [x] is finite and [lo <= x <= hi]. *)
Definition within (lo hi : Q) (x : float) : bool :=
  match SF2Q x with
  | Some q => Qle_bool lo q && Qle_bool q hi
  | None => false
  end.

(** The Python literal [0.5] in a binary format of precision [prec]:
    mantissa [2^(prec-1)], exponent [-prec]. *)
Definition half (prec : Z) : float :=
  S754_finite false (Pos.iter xO 1%positive (Z.to_pos (prec - 1))) (- prec).

(** The Python literal [0.8] (binary64, [0x3FE999999999999A]). *)
Definition f0_8 : float := S754_finite false 7205759403792794 (-53).

(** The Python literal [1.0] (binary64). *)
Definition f1_0 : float := S754_finite false 4503599627370496 (-52).

(** The Python literals [0.5] and [4.0] (binary64), the default opacity of
    a volume visual and the default width of a triangle visual. *)
Definition f0_5 : float := S754_finite false 4503599627370496 (-53).
Definition f4_0 : float := S754_finite false 4503599627370496 (-50).

(** ** NumPy arrays

    Two-dimensional arrays, as the list of their rows. *)

Abbreviation array := (list (list float)).

Definition amap (f : float -> float) (a : array) : array := map (map f) a.

Definition array_all (p : float -> bool) (a : array) : bool :=
  forallb (forallb p) a.

(** [numpy.isnan(a)]: the Boolean mask of the NaN entries. *)
Definition np_isnan (a : array) : list (list bool) := map (map isnan) a.

(** [a[mask] = v] with a Boolean mask of the shape of [a]. *)
Definition setitem_mask (a : array) (mask : list (list bool)) (v : float) : array :=
  zip_with (zip_with (fun x (b : bool) => if b then v else x)) a mask.

(** What [a[numpy.isnan(a)] = 0] does to one element. *)
Definition nan_to_zero (x : float) : float := if isnan x then fzero else x.

(** [a += c] on every element, in the array's format. *)
Definition np_add_scalar (prec emax : Z) (c : float) (a : array) : array :=
  amap (fun x => SFadd prec emax x c) a.

(** [numpy.vstack] of a tuple of two-dimensional blocks. *)
Definition np_vstack (blocks : list array) : array := concat blocks.

(** ** Python values and exceptions *)

Inductive exn :=
| KeyError (key : string)
| IndexError
| ValueError
| AttributeError
| LibraryError (what : string).

(** A colour argument ([array_like, optional]): [None], a Python sequence
    (tuple or list) of numbers, or a one-dimensional [numpy.ndarray]. *)
Inductive colour_arg :=
| PyNone
| PySeq (xs : list float)
| PyArray (xs : list float).

(** The truth value of a number: everything but the zeros is true. *)
Definition float_truth (x : float) : bool :=
  match x with
  | S754_zero _ => false
  | _ => true
  end.

(** Python's truth value of a colour argument.  [None] and the empty
    sequence are false; an array of several elements has no truth value. *)
Definition py_bool (c : colour_arg) : exn + bool :=
  match c with
  | PyNone => inr false
  | PySeq xs => inr (negb (bool_decide (xs = [])))
  | PyArray [] => inr false
  | PyArray [x] => inr (float_truth x)
  | PyArray (_ :: _ :: _) => inl ValueError
  end.

(** [not c]. *)
Definition py_not (c : colour_arg) : exn + bool :=
  match py_bool c with
  | inl e => inl e
  | inr b => inr (negb b)
  end.

(** The elements [numpy.hstack] sees in a colour argument. *)
Definition colour_elements (c : colour_arg) : list float :=
  match c with
  | PyNone => []
  | PySeq xs | PyArray xs => xs
  end.

(** [numpy.hstack((colour, opacity))] for a colour that is not [None]. *)
Definition np_hstack (c : colour_arg) (opacity : float) : list float :=
  colour_elements c ++ [opacity].

(** [a[i, ...]] with Python's indexing: negative indices count from the
    end, an index out of range raises. *)
Definition np_row (a : array) (i : Z) : exn + list float :=
  let n := Z.of_nat (length a) in
  let j := if i <? 0 then i + n else i in
  if (0 <=? j) && (j <? n)
  then match a !! Z.to_nat j with
       | Some r => inr r
       | None => inl IndexError
       end
  else inl IndexError.

(** [d[k]] on a dictionary. *)
Definition dict_getitem {V : Type} (d : gmap string V) (k : string) : exn + V :=
  match d !! k with
  | Some v => inr v
  | None => inl (KeyError k)
  end.

(** ** The object store

    Objects live in a store and are named by their address; two names with
    the same address are the same Python object. *)

Abbreviation loc := nat.

(** The mesh visual [colour_analysis.visuals.Box]; [box_vertices] is the
    array object its mesh data points to. *)
Record Box := {
  box_width_segments : Z;
  box_height_segments : Z;
  box_depth_segments : Z;
  box_planes : option (list string);
  box_uniform_colour : colour_arg;
  box_uniform_opacity : float;
  box_vertex_colours : option array;
  box_wireframe : bool;
  box_wireframe_offset : option (Z * Z);
  box_parent : option loc;
  box_vertices : loc
}.

(** A [vispy.scene.visuals.Line]: positions, colour, width, method, parent. *)
Record Line := {
  line_pos : loc;
  line_color : list (list float);
  line_width : float;
  line_method : string;
  line_parent : option loc
}.

Inductive object :=
| Ndarray (a : array)
| NodeObj (parent : option loc)
| BoxObj (b : Box)
| LineObj (l : Line).

Abbreviation store := (list object).

(** The scene-graph parent of an object. *)
Definition parent_of (o : object) : option loc :=
  match o with
  | Ndarray _ => None
  | NodeObj p => p
  | BoxObj b => box_parent b
  | LineObj l => line_parent l
  end.

Definition has_parent (n : loc) (o : object) : bool :=
  match parent_of o with
  | Some p => Nat.eqb p n
  | None => false
  end.

Definition is_child_of (s : store) (n : loc) (l : loc) : bool :=
  match s !! l with
  | Some o => has_parent n o
  | None => false
  end.

(** The children of a node, in the order they were attached. *)
Definition children (s : store) (n : loc) : list loc :=
  List.filter (is_child_of s n) (seq 0 (length s)).

(** A store has no dangling parent. *)
Definition store_wf (s : store) : Prop :=
  ∀ l o p, s !! l = Some o → parent_of o = Some p → (p < length s)%nat.

(** A [parent] argument names an object of the store, or is [None]. *)
Definition parent_in (s : store) (parent : option loc) : Prop :=
  ∀ p, parent = Some p → (p < length s)%nat.

(** ** Computations: state and exceptions

    A computation takes the store and returns the store it leaves, with
    either the exception it raised or its result. *)

Definition M (A : Type) : Type := store → store * (exn + A).

Definition ret {A} (a : A) : M A := fun s => (s, inr a).

Definition bind {A B} (c : M A) (k : A → M B) : M B :=
  fun s => match c s with
           | (s', inl e) => (s', inl e)
           | (s', inr a) => k a s'
           end.

(** A library call that may raise and does not touch the store. *)
Definition lift {A} (r : exn + A) : M A := fun s => (s, r).

Notation "'let!' x ':=' c 'in' k" := (bind c (fun x => k))
  (at level 10, x name, c at level 100, k at level 200).
Notation "'do!' c 'in' k" := (bind c (fun _ => k))
  (at level 10, c at level 100, k at level 200).

(** Creating an object. *)
Definition alloc (o : object) : M loc := fun s => (s ++ [o], inr (length s)).

Definition read_array (l : loc) : M array :=
  fun s => match s !! l with
           | Some (Ndarray a) => (s, inr a)
           | _ => (s, inl AttributeError)
           end.

Definition write_array (l : loc) (a : array) : M unit :=
  fun s => match s !! l with
           | Some (Ndarray _) => (<[l := Ndarray a]> s, inr tt)
           | _ => (s, inl AttributeError)
           end.

(** [a += c], in place. *)
Definition ndarray_iadd (prec emax : Z) (l : loc) (c : float) : M unit :=
  let! a := read_array l in
  write_array l (np_add_scalar prec emax c a).

(** [a[numpy.isnan(a)] = v], in place. *)
Definition ndarray_setitem_isnan (l : loc) (v : float) : M unit :=
  let! a := read_array l in
  write_array l (setitem_mask a (np_isnan a) v).

(** [box.mesh_data.get_vertices()]: the array object itself, not a copy. *)
Definition mesh_get_vertices (b : loc) : M loc :=
  fun s => match s !! b with
           | Some (BoxObj bx) => (s, inr (box_vertices bx))
           | _ => (s, inl AttributeError)
           end.

Definition with_vertices (bx : Box) (v : loc) : Box :=
  {| box_width_segments := box_width_segments bx;
     box_height_segments := box_height_segments bx;
     box_depth_segments := box_depth_segments bx;
     box_planes := box_planes bx;
     box_uniform_colour := box_uniform_colour bx;
     box_uniform_opacity := box_uniform_opacity bx;
     box_vertex_colours := box_vertex_colours bx;
     box_wireframe := box_wireframe bx;
     box_wireframe_offset := box_wireframe_offset bx;
     box_parent := box_parent bx;
     box_vertices := v |}.

(** [box.mesh_data.set_vertices(v)]: the mesh now points to [v]. *)
Definition mesh_set_vertices (b : loc) (v : loc) : M unit :=
  fun s => match s !! b with
           | Some (BoxObj bx) => (<[b := BoxObj (with_vertices bx v)]> s, inr tt)
           | _ => (s, inl AttributeError)
           end.

(** [Node(parent)]. *)
Definition Node (parent : option loc) : M loc := alloc (NodeObj parent).

(** [Line(pos, color, width=width, method=method, parent=parent)]. *)
Definition mkLine (pos : loc) (color : list (list float)) (width : float)
    (method : string) (parent : option loc) : M loc :=
  alloc (LineObj {| line_pos := pos; line_color := color; line_width := width;
                    line_method := method; line_parent := parent |}).

(** The update [RGB_identity_cube] makes to its box, on any box:
    [v = b.mesh_data.get_vertices(); v += c; b.mesh_data.set_vertices(v)]. *)
Definition shift_vertices (prec emax : Z) (b : loc) (c : float) : M unit :=
  let! vertices := mesh_get_vertices b in
  do! ndarray_iadd prec emax vertices c in
  mesh_set_vertices b vertices.

(** The shape of an array: the lengths of its rows. *)
Definition shape (a : array) : list nat := map length a.

(** ** The line of a triangle visual *)

(** The rows of [ij] with its last row put in front and its first row
    put behind. *)
Definition closed_path (ij : array) : array :=
  option_list (last ij) ++ ij ++ option_list (head ij).

(** The uniform colour of a triangle visual: grey when none is given. *)
Definition triangle_colour (uniform_colour : colour_arg) : colour_arg :=
  match uniform_colour with
  | PyNone => PySeq [f0_8; f0_8; f0_8]
  | _ => uniform_colour
  end.

(** The line a triangle visual creates, with its points in the array at
    [pos]. *)
Definition triangle_line (uniform_colour : colour_arg) (uniform_opacity width : float)
    (parent : option loc) (pos : loc) : Line :=
  {| line_pos := pos;
     line_color := [np_hstack (triangle_colour uniform_colour) uniform_opacity];
     line_width := width;
     line_method := "agg";
     line_parent := parent |}.

(** ** What the module observes of its results *)

Definition deref_array (s : store) (l : loc) : option array :=
  match s !! l with
  | Some (Ndarray a) => Some a
  | _ => None
  end.

Definition deref_box (s : store) (l : loc) : option Box :=
  match s !! l with
  | Some (BoxObj b) => Some b
  | _ => None
  end.

Definition deref_line (s : store) (l : loc) : option Line :=
  match s !! l with
  | Some (LineObj b) => Some b
  | _ => None
  end.

(** The vertex positions of the mesh of the box at [l]. *)
Definition box_positions (s : store) (l : loc) : option array :=
  match deref_box s l with
  | Some b => deref_array s (box_vertices b)
  | None => None
  end.

(** The geometry of a box: vertex positions, per-vertex colours, uniform
    colour and opacity, wireframe flag. *)
Definition box_geometry (s : store) (l : loc)
  : option (option array * option array * colour_arg * float * bool) :=
  match deref_box s l with
  | Some b => Some (deref_array s (box_vertices b), box_vertex_colours b,
                    box_uniform_colour b, box_uniform_opacity b, box_wireframe b)
  | None => None
  end.

(** The geometry of a volume visual: that of its cubes. *)
Definition volume_geometry (s : store) (node : loc) :=
  map (box_geometry s) (children s node).

(** The geometry of a line: points, colour, width. *)
Definition line_geometry (s : store) (l : loc)
  : option (option array * list (list float) * float) :=
  match deref_line s l with
  | Some ln => Some (deref_array s (line_pos ln), line_color ln, line_width ln)
  | None => None
  end.

(** What a caller sees of a call: the exception, or an observation of the
    result in the store the call leaves. *)
Definition outcome {A B} (obs : store → A → B) (r : store * (exn + A)) : exn + B :=
  match r with
  | (_, inl e) => inl e
  | (s, inr a) => inr (obs s a)
  end.

(** ** The library routines the module calls *)

(** The structured vertex array of [create_box]: the ['position'] and
    ['color'] fields (the module reads no other). *)
Record box_vertex_data := {
  position : array;
  color : array
}.

(** A [colour.RGB_Colourspace]: the attributes the module reads. *)
Record RGB_Colourspace := {
  primaries : array;
  whitepoint : list float;
  RGB_to_XYZ_matrix : array
}.

(** A chromaticity-diagram transformation, [XYZ_to_ij(XYZ, illuminant)]. *)
Definition ij_transformation := array → list float → array.

Section Visuals.

(** The binary format of the mesh vertex arrays. *)
Variables prec emax : Z.

(** [vispy.geometry.generation.create_box], at its default unit size:
    vertices, faces and outline for given segment counts and planes. *)
Variable create_box :
  Z → Z → Z → option (list string) →
  box_vertex_data * list (list Z) * list (list Z).

(** [colour.plotting.get_RGB_colourspace]: the colourspace of that name,
    or the exception the library raises for a name it does not know. *)
Variable get_RGB_colourspace : string → exn + RGB_Colourspace.

(** [colour.RGB_to_XYZ(RGB, illuminant_RGB, illuminant_XYZ, matrix)]. *)
Variable RGB_to_XYZ : array → list float → list float → array → array.

(** [colour.plotting.volume.XYZ_to_reference_colourspace(XYZ, illuminant,
    reference_colourspace)]; it may raise on the name it is given. *)
Variable XYZ_to_reference_colourspace : array → list float → string → exn + array.

(** [colour.xy_to_XYZ]. *)
Variable xy_to_XYZ : array → array.

(** [colour_analysis.constants.DEFAULT_PLOTTING_ILLUMINANT]. *)
Variable DEFAULT_PLOTTING_ILLUMINANT : list float.

(** [colour_analysis.utilities.CHROMATICITY_DIAGRAM_TRANSFORMATIONS]: for
    each diagram name, a dictionary of named transformations. *)
Variable CHROMATICITY_DIAGRAM_TRANSFORMATIONS : gmap string (gmap string ij_transformation).

(** Modelled from the spec: the constructor of the class
    [colour_analysis.visuals.Box], which is not among the sources.  The
    spec has the box tessellation delegated to the mesh-generation
    utility and the box hold "a set of 3D vertex positions (one cube's
    worth, tessellated)": the constructor tessellates with [create_box]
    at the default unit size, keeps the positions in a fresh array as its
    mesh vertices, and records its arguments.  [RGB_identity_cube] relies
    on the same: it hands the box, as its per-vertex colours, the colours
    of its own call of [create_box] with the same arguments. *)
Definition mkBox (width_segments height_segments depth_segments : Z)
    (planes : option (list string)) (uniform_colour : colour_arg)
    (uniform_opacity : float) (vertex_colours : option array)
    (wireframe : bool) (wireframe_offset : option (Z * Z))
    (parent : option loc) : M loc :=
  let '(vertices, _faces, _outline) :=
    create_box width_segments height_segments depth_segments planes in
  let! mesh_vertices := alloc (Ndarray (position vertices)) in
  alloc (BoxObj {| box_width_segments := width_segments;
                   box_height_segments := height_segments;
                   box_depth_segments := depth_segments;
                   box_planes := planes;
                   box_uniform_colour := uniform_colour;
                   box_uniform_opacity := uniform_opacity;
                   box_vertex_colours := vertex_colours;
                   box_wireframe := wireframe;
                   box_wireframe_offset := wireframe_offset;
                   box_parent := parent;
                   box_vertices := mesh_vertices |}).

(** [RGB_identity_cube]; of the extra keyword arguments handed on to
    [Box], the module only ever passes [parent]. *)
Definition RGB_identity_cube (width_segments height_segments depth_segments : Z)
    (planes : option (list string)) (uniform_colour : colour_arg)
    (uniform_opacity : float) (vertex_colours : bool) (wireframe : bool)
    (parent : option loc) : M loc :=
  let '(vertices, _faces, _outline) :=
    create_box width_segments height_segments depth_segments planes in
  let vertex_colours := if vertex_colours then Some (color vertices) else None in
  let! RGB_box := mkBox width_segments height_segments depth_segments planes
                    uniform_colour uniform_opacity vertex_colours wireframe
                    (Some (1, 1)) parent in
  let! vertices := mesh_get_vertices RGB_box in
  do! ndarray_iadd prec emax vertices (half prec) in
  do! mesh_set_vertices RGB_box vertices in
  ret RGB_box.

(** The vertex array an identity cube ends with: the tessellation with
    one half added to every coordinate. *)
Definition identity_vertices (width_segments height_segments depth_segments : Z)
    (planes : option (list string)) : array :=
  np_add_scalar prec emax (half prec)
    (position (create_box width_segments height_segments depth_segments planes).1.1).

(** The box an identity cube is, with its mesh pointing to [v]. *)
Definition identity_box (width_segments height_segments depth_segments : Z)
    (planes : option (list string)) (uniform_colour : colour_arg)
    (uniform_opacity : float) (vertex_colours : bool) (wireframe : bool)
    (parent : option loc) (v : loc) : Box :=
  {| box_width_segments := width_segments;
     box_height_segments := height_segments;
     box_depth_segments := depth_segments;
     box_planes := planes;
     box_uniform_colour := uniform_colour;
     box_uniform_opacity := uniform_opacity;
     box_vertex_colours :=
       if vertex_colours
       then Some (color (create_box width_segments height_segments
                           depth_segments planes).1.1)
       else None;
     box_wireframe := wireframe;
     box_wireframe_offset := Some (1, 1);
     box_parent := parent;
     box_vertices := v |}.

(** [RGB_colourspace_volume_visual]. *)
Definition RGB_colourspace_volume_visual (colourspace reference_colourspace : string)
    (segments : Z) (uniform_colour : colour_arg) (uniform_opacity : float)
    (wireframe : bool) (wireframe_colour : colour_arg)
    (wireframe_opacity : float) (parent : option loc) : M loc :=
  let! node := Node parent in
  let! colourspace := lift (get_RGB_colourspace colourspace) in
  let! vertex_colours := lift (py_not uniform_colour) in
  let! RGB_cube_f := RGB_identity_cube segments segments segments None
                       uniform_colour uniform_opacity vertex_colours false
                       (Some node) in
  let! vertices := mesh_get_vertices RGB_cube_f in
  let! vertices := read_array vertices in
  let XYZ := RGB_to_XYZ vertices (whitepoint colourspace)
               (whitepoint colourspace) (RGB_to_XYZ_matrix colourspace) in
  let! value := lift (XYZ_to_reference_colourspace XYZ (whitepoint colourspace)
                        reference_colourspace) in
  let! value := alloc (Ndarray value) in
  do! ndarray_setitem_isnan value fzero in
  do! mesh_set_vertices RGB_cube_f value in
  do! (if wireframe
       then
         let! vertex_colours := lift (py_not wireframe_colour) in
         let! RGB_cube_w := RGB_identity_cube segments segments segments None
                              wireframe_colour wireframe_opacity vertex_colours
                              true (Some node) in
         mesh_set_vertices RGB_cube_w value
       else ret tt) in
  ret node.

(** The two-stage conversion of the identity cube's vertices: RGB to
    XYZ, then XYZ to the reference colourspace. *)
Definition reference_vertices (colourspace : RGB_Colourspace)
    (reference_colourspace : string) (segments : Z) : exn + array :=
  XYZ_to_reference_colourspace
    (RGB_to_XYZ (identity_vertices segments segments segments None)
       (whitepoint colourspace) (whitepoint colourspace)
       (RGB_to_XYZ_matrix colourspace))
    (whitepoint colourspace) reference_colourspace.

(** The objects a volume visual that returns has created, from address
    [n] on: the node, the filled cube's first vertex array and the filled
    cube, the converted vertex array, and with [wireframe] the wireframe
    cube's first vertex array and the wireframe cube. *)
Definition volume_objects (n : loc) (parent : option loc) (segments : Z)
    (uniform_colour : colour_arg) (uniform_opacity : float) (vf : bool)
    (wireframe : bool) (wireframe_colour : colour_arg)
    (wireframe_opacity : float) (vw : bool) (value : array) : list object :=
  [NodeObj parent;
   Ndarray (identity_vertices segments segments segments None);
   BoxObj (identity_box segments segments segments None uniform_colour
             uniform_opacity vf false (Some n) (n + 3)%nat);
   Ndarray (amap nan_to_zero value)]
  ++ (if wireframe
      then [Ndarray (identity_vertices segments segments segments None);
            BoxObj (identity_box segments segments segments None
                      wireframe_colour wireframe_opacity vw true (Some n)
                      (n + 3)%nat)]
      else []).

(** The exception a volume visual raises, if it raises: that of the
    colourspace lookup, of the truth value of the uniform colour, of the
    conversion, or of the truth value of the wireframe colour. *)
Definition volume_exception (colourspace reference_colourspace : string)
    (segments : Z) (uniform_colour : colour_arg) (wireframe : bool)
    (wireframe_colour : colour_arg) : option exn :=
  match get_RGB_colourspace colourspace with
  | inl e => Some e
  | inr c =>
      match py_not uniform_colour with
      | inl e => Some e
      | inr _ =>
          match reference_vertices c reference_colourspace segments with
          | inl e => Some e
          | inr _ =>
              if wireframe
              then match py_not wireframe_colour with
                   | inl e => Some e
                   | inr _ => None
                   end
              else None
          end
      end
  end.

(** [RGB_colourspace_triangle_visual]. *)
Definition RGB_colourspace_triangle_visual (colourspace diagram : string)
    (uniform_colour : colour_arg) (uniform_opacity : float) (width : float)
    (parent : option loc) : M loc :=
  let uniform_colour :=
    match uniform_colour with
    | PyNone => PySeq [f0_8; f0_8; f0_8]
    | _ => uniform_colour
    end in
  let! colourspace := lift (get_RGB_colourspace colourspace) in
  let illuminant := DEFAULT_PLOTTING_ILLUMINANT in
  let! transformations :=
    lift (dict_getitem CHROMATICITY_DIAGRAM_TRANSFORMATIONS diagram) in
  let! XYZ_to_ij := lift (dict_getitem transformations "XYZ_to_ij") in
  let ij := XYZ_to_ij (xy_to_XYZ (primaries colourspace)) illuminant in
  let! last_row := lift (np_row ij (-1)) in
  let! first_row := lift (np_row ij 0) in
  let! ij := alloc (Ndarray (np_vstack [[last_row]; ij; [first_row]])) in
  do! ndarray_setitem_isnan ij fzero in
  let RGB := [np_hstack uniform_colour uniform_opacity] in
  let! line := mkLine ij RGB width "agg" parent in
  ret line.

(** The chromaticity coordinates of the primaries of a colourspace. *)
Definition primaries_ij (XYZ_to_ij : ij_transformation)
    (colourspace : RGB_Colourspace) : array :=
  XYZ_to_ij (xy_to_XYZ (primaries colourspace)) DEFAULT_PLOTTING_ILLUMINANT.

(** The exception a triangle visual raises, if it raises: that of the
    colourspace lookup, of one of the two dictionary lookups, or of
    indexing an array of no rows. *)
Definition triangle_exception (colourspace diagram : string) : option exn :=
  match get_RGB_colourspace colourspace with
  | inl e => Some e
  | inr c =>
      match CHROMATICITY_DIAGRAM_TRANSFORMATIONS !! diagram with
      | None => Some (KeyError diagram)
      | Some transformations =>
          match transformations !! "XYZ_to_ij" with
          | None => Some (KeyError "XYZ_to_ij")
          | Some XYZ_to_ij =>
              match primaries_ij XYZ_to_ij c with
              | [] => Some IndexError
              | _ :: _ => None
              end
          end
      end
  end.

End Visuals.

(** ** A concrete instance

    Small stand-ins for the library routines, on which the module can be
    run: binary32 vertices, binary64 colour arithmetic, a box reduced to
    its eight corners, two colourspaces and two reference colourspaces. *)

Module Concrete.

Definition prec : Z := 24.
Definition emax : Z := 128.

Definition add64 : float → float → float := SFadd 53 1024.
Definition sub64 : float → float → float := SFsub 53 1024.
Definition mul64 : float → float → float := SFmul 53 1024.
Definition div64 : float → float → float := SFdiv 53 1024.

Definition lit (m : positive) (e : Z) : float := S754_finite false m e.

(** The eight corners of the unit box centred at the origin. *)
Definition corners : array :=
  let p := half prec in
  let n := SFopp p in
  [[n; n; n]; [p; n; n]; [n; p; n]; [p; p; n];
   [n; n; p]; [p; n; p]; [n; p; p]; [p; p; p]].

(** Their colours: the position moved into [0, 1], and an alpha of one. *)
Definition corner_colours : array :=
  map (fun r => map (fun x => SFadd prec emax x (half prec)) r
                ++ [S754_finite false 8388608 (-23)]) corners.

Definition create_box (_ _ _ : Z) (_ : option (list string))
  : box_vertex_data * list (list Z) * list (list Z) :=
  ({| position := corners; color := corner_colours |},
   [[0; 1; 2]; [1; 3; 2]], [[0; 1]; [1; 3]; [3; 2]; [2; 0]]).

Definition Rec709 : RGB_Colourspace :=
  {| primaries := [[lit 5764607523034235 (-53); lit 5944751508129055 (-54)];
                   [lit 5404319552844595 (-54); lit 5404319552844595 (-53)];
                   [lit 5404319552844595 (-55); lit 8646911284551352 (-57)]];
     whitepoint := [lit 5633102413915016 (-54); lit 5926737109619573 (-54)];
     RGB_to_XYZ_matrix :=
       [[lit 7429137945310370 (-54); lit 6441948906990757 (-54); lit 6503197861922996 (-55)];
        [lit 7659722246231740 (-55); lit 6441948906990757 (-53); lit 5202558289538397 (-56)];
        [lit 5562846259728037 (-58); lit 8589265209321010 (-56); lit 8561342891631313 (-53)]] |}.

(** A colourspace whose matrix has a negative entry: green maps to
    [X = -1], [Y = 1], [Z = 0]. *)
Definition Skewed : RGB_Colourspace :=
  {| primaries := primaries Rec709;
     whitepoint := whitepoint Rec709;
     RGB_to_XYZ_matrix :=
       [[f1_0; SFopp f1_0; fzero]; [fzero; f1_0; fzero]; [fzero; fzero; f1_0]] |}.

Definition RGB_COLOURSPACES : gmap string RGB_Colourspace :=
  {[ "Rec. 709" := Rec709; "Skewed" := Skewed ]}.

Definition get_RGB_colourspace (name : string) : exn + RGB_Colourspace :=
  dict_getitem RGB_COLOURSPACES name.

Definition dot (r v : list float) : float :=
  fold_right add64 fzero (zip_with mul64 r v).

(** The matrix applied to every row; the two whitepoints are equal in
    every call of the module, so there is no chromatic adaptation. *)
Definition RGB_to_XYZ (RGB : array) (_ _ : list float) (matrix : array) : array :=
  map (fun v => map (fun r => dot r v) matrix) RGB.

(** [x = X / (X + Y + Z)], [y = Y / (X + Y + Z)], with no guard. *)
Definition XYZ_to_xyY_row (v : list float) : list float :=
  match v with
  | [X; Y; Z] => let d := add64 (add64 X Y) Z in [div64 X d; div64 Y d; Y]
  | _ => v
  end.

Definition XYZ_to_reference_colourspace (XYZ : array) (_ : list float)
    (reference_colourspace : string) : exn + array :=
  if bool_decide (reference_colourspace = "CIE XYZ") then inr XYZ
  else if bool_decide (reference_colourspace = "CIE xyY")
       then inr (map XYZ_to_xyY_row XYZ)
       else inl ValueError.

(** [X = x / y], [Y = 1], [Z = (1 - x - y) / y]. *)
Definition xy_to_XYZ (xy : array) : array :=
  map (fun v => match v with
                | [x; y] => [div64 x y; f1_0; div64 (sub64 (sub64 f1_0 x) y) y]
                | _ => v
                end) xy.

Definition XYZ_to_xy : ij_transformation :=
  fun XYZ _ => map (fun v => take 2 (XYZ_to_xyY_row v)) XYZ.

Definition DEFAULT_PLOTTING_ILLUMINANT : list float := whitepoint Rec709.

Definition CHROMATICITY_DIAGRAM_TRANSFORMATIONS
  : gmap string (gmap string ij_transformation) :=
  {[ "CIE 1931" := {[ "XYZ_to_ij" := XYZ_to_xy ]} ]}.

Definition identity_cube := RGB_identity_cube prec emax create_box.

Definition volume_visual :=
  RGB_colourspace_volume_visual prec emax create_box get_RGB_colourspace
    RGB_to_XYZ XYZ_to_reference_colourspace.

Definition triangle_visual :=
  RGB_colourspace_triangle_visual get_RGB_colourspace xy_to_XYZ
    DEFAULT_PLOTTING_ILLUMINANT CHROMATICITY_DIAGRAM_TRANSFORMATIONS.

Definition volume_raises :=
  volume_exception prec emax create_box get_RGB_colourspace RGB_to_XYZ
    XYZ_to_reference_colourspace.

Definition triangle_raises :=
  triangle_exception get_RGB_colourspace xy_to_XYZ DEFAULT_PLOTTING_ILLUMINANT
    CHROMATICITY_DIAGRAM_TRANSFORMATIONS.

Definition converted :=
  reference_vertices prec emax create_box RGB_to_XYZ XYZ_to_reference_colourspace.

Definition coordinates := primaries_ij xy_to_XYZ DEFAULT_PLOTTING_ILLUMINANT.

End Concrete.

(** ** Degenerate instances

    Library routines at their edges: a tessellation that divides by a
    segment count of zero, a colourspace without primaries, a diagram
    whose dictionary has no ['XYZ_to_ij']. *)

Module Degenerate.

(** With a segment count of zero the grid coordinates are [0 / 0]. *)
Definition create_box (ws hs ds : Z) (planes : option (list string))
  : box_vertex_data * list (list Z) * list (list Z) :=
  if (ws =? 0) || (hs =? 0) || (ds =? 0)
  then ({| position := [[S754_nan; S754_nan; SFopp (half Concrete.prec)];
                        [S754_infinity false; half Concrete.prec; S754_nan]];
           color := [[fzero; fzero; fzero; f1_0]; [f1_0; f1_0; fzero; f1_0]] |},
        [], [])
  else Concrete.create_box ws hs ds planes.

Definition Blank : RGB_Colourspace :=
  {| primaries := [];
     whitepoint := whitepoint Concrete.Rec709;
     RGB_to_XYZ_matrix := RGB_to_XYZ_matrix Concrete.Rec709 |}.

Definition get_RGB_colourspace (name : string) : exn + RGB_Colourspace :=
  if bool_decide (name = "Blank") then inr Blank
  else Concrete.get_RGB_colourspace name.

Definition CHROMATICITY_DIAGRAM_TRANSFORMATIONS
  : gmap string (gmap string ij_transformation) :=
  {[ "CIE 1931" := {[ "XYZ_to_ij" := Concrete.XYZ_to_xy ]};
     "CIE 1960 UCS" := {[ "ij_to_XYZ" := Concrete.XYZ_to_xy ]} ]}.

Definition identity_cube := RGB_identity_cube Concrete.prec Concrete.emax create_box.

Definition triangle_visual :=
  RGB_colourspace_triangle_visual get_RGB_colourspace Concrete.xy_to_XYZ
    Concrete.DEFAULT_PLOTTING_ILLUMINANT CHROMATICITY_DIAGRAM_TRANSFORMATIONS.

End Degenerate.

(** * The definitions at work *)

Example half_binary32 : half 24 = S754_finite false 8388608 (-24).
Proof. reflexivity. Qed.

Example add_half_lowest :
  SFadd 24 128 (SFopp (half 24)) (half 24) = S754_zero false.
Proof. reflexivity. Qed.

Example add_half_highest :
  SFadd 24 128 (half 24) (half 24) = S754_finite false 8388608 (-23).
Proof. reflexivity. Qed.

Example add_half_rounds :
  SFadd 24 128 (S754_finite true 1 (-149)) (half 24) = half 24.
Proof. reflexivity. Qed.

Example within_unit_one : within 0 1 (S754_finite false 8388608 (-23)) = true.
Proof. reflexivity. Qed.

Example within_unit_above : within 0 1 (S754_finite false 8388609 (-23)) = false.
Proof. reflexivity. Qed.

Example within_unit_infinity : within 0 1 (S754_infinity false) = false.
Proof. reflexivity. Qed.

Example setitem_isnan_example :
  setitem_mask [[S754_nan; S754_infinity false]; [f1_0; S754_nan]]
    (np_isnan [[S754_nan; S754_infinity false]; [f1_0; S754_nan]]) fzero
  = [[fzero; S754_infinity false]; [f1_0; fzero]].
Proof. reflexivity. Qed.

Example np_row_negative : np_row [[f0_5]; [f0_8]; [f1_0]] (-1) = inr [f1_0].
Proof. reflexivity. Qed.

Example np_row_empty : np_row [] (-1) = inl IndexError ∧ np_row [] 0 = inl IndexError.
Proof. split; reflexivity. Qed.

Example py_not_none : py_not PyNone = inr true.
Proof. reflexivity. Qed.

Example py_not_tuple : py_not (PySeq [f0_8; f0_8; f0_8]) = inr false.
Proof. reflexivity. Qed.

Example py_not_empty_tuple : py_not (PySeq []) = inr true.
Proof. reflexivity. Qed.

Example py_not_array : py_not (PyArray [f0_8; f0_8; f0_8]) = inl ValueError.
Proof. reflexivity. Qed.

Example volume_unknown_colourspace :
  Concrete.volume_visual "Rec. 907" "CIE xyY" 16 PyNone f0_5 true PyNone f1_0 None []
  = ([NodeObj None], inl (KeyError "Rec. 907")).
Proof. vm_compute. reflexivity. Qed.

Example volume_array_colour :
  (Concrete.volume_visual "Rec. 709" "CIE xyY" 16 (PyArray [f0_8; f0_8; f0_8]) f0_5
     true PyNone f1_0 None []).2
  = inl ValueError.
Proof. vm_compute. reflexivity. Qed.

Example triangle_unknown_diagram :
  Concrete.triangle_visual "Rec. 709" "CIE 1931 UCS" PyNone f1_0 f4_0 None []
  = ([], inl (KeyError "CIE 1931 UCS")).
Proof. vm_compute. reflexivity. Qed.

(** * Facts about the numbers *)

(** ** Binary digits and shifts *)

Lemma digits2_pos_lower (p : positive) : 2 ^ (Zpos (digits2_pos p) - 1) <= Zpos p.
Proof.
  induction p as [p IH | p IH |]; cbn [digits2_pos].
  - rewrite Pos2Z.inj_succ.
    replace (Z.succ (Zpos (digits2_pos p)) - 1) with (Z.succ (Zpos (digits2_pos p) - 1)) by lia.
    rewrite Z.pow_succ_r by lia. lia.
  - rewrite Pos2Z.inj_succ.
    replace (Z.succ (Zpos (digits2_pos p)) - 1) with (Z.succ (Zpos (digits2_pos p) - 1)) by lia.
    rewrite Z.pow_succ_r by lia. lia.
  - reflexivity.
Qed.

Lemma Zdigits2_le_pow (m k : Z) : 0 <= k → 0 <= m <= 2 ^ k → Zdigits2 m <= k + 1.
Proof.
  intros Hk [Hm Hle]. destruct m as [| p | p]; cbn [Zdigits2]; [lia | | lia].
  pose proof (digits2_pos_lower p) as Hd.
  assert (Hpow : 2 ^ (Zpos (digits2_pos p) - 1) <= 2 ^ k) by lia.
  apply Z.pow_le_mono_r_iff in Hpow; lia.
Qed.

Lemma iter_xO_pow (m d : positive) : Zpos (Pos.iter xO m d) = Zpos m * 2 ^ Zpos d.
Proof.
  induction d as [| d IH] using Pos.peano_ind.
  - cbn. lia.
  - rewrite Pos.iter_succ, Pos2Z.inj_xO, IH, Pos2Z.inj_succ, Z.pow_succ_r by lia. lia.
Qed.

Lemma shl_align_spec (mx : positive) (ex ex' : Z) :
  snd (shl_align mx ex ex') = Z.min ex ex' ∧
  Zpos (fst (shl_align mx ex ex')) = Zpos mx * 2 ^ (ex - Z.min ex ex').
Proof.
  unfold shl_align. destruct (ex' - ex) as [| d | d] eqn:Hd; cbn [fst snd].
  - replace (Z.min ex ex') with ex by lia. rewrite Z.sub_diag. cbn. lia.
  - replace (Z.min ex ex') with ex by lia. rewrite Z.sub_diag. cbn. lia.
  - replace (Z.min ex ex') with ex' by lia.
    rewrite iter_xO_pow. replace (ex - ex') with (Zpos d) by lia. split; reflexivity.
Qed.

(** ** Shifting right with a round and a sticky bit *)

Lemma shr_1_spec (r : shr_record) :
  0 <= shr_m r →
  shr_1 r = {| shr_m := Z.div2 (shr_m r);
               shr_r := Z.odd (shr_m r);
               shr_s := shr_r r || shr_s r |}.
Proof.
  destruct r as [m rb sb]. cbn [shr_m shr_r shr_s]. intros Hm.
  destruct m as [| [p | p |] | p]; try lia; reflexivity.
Qed.

Lemma iter_pos_nat {A} (f : A → A) (n : positive) (x : A) :
  SpecFloat.iter_pos f n x = Nat.iter (Pos.to_nat n) f x.
Proof.
  revert x. induction n as [n IH | n IH |]; intros x; cbn [SpecFloat.iter_pos].
  - rewrite !IH, Pos2Nat.inj_xI.
    replace (S (2 * Pos.to_nat n)) with (Pos.to_nat n + (Pos.to_nat n + 1))%nat by lia.
    rewrite !Nat.iter_add. reflexivity.
  - rewrite !IH, Pos2Nat.inj_xO.
    replace (2 * Pos.to_nat n)%nat with (Pos.to_nat n + Pos.to_nat n)%nat by lia.
    rewrite Nat.iter_add. reflexivity.
  - reflexivity.
Qed.

(** After [k] shifts of an exact record the mantissa is the quotient by
    [2^k], and both bits are clear when the division is exact. *)
Lemma iter_shr_1_spec (m : Z) (k : nat) :
  0 <= m →
  let r := Nat.iter k shr_1 {| shr_m := m; shr_r := false; shr_s := false |} in
  shr_m r = m / 2 ^ Z.of_nat k ∧
  (m mod 2 ^ Z.of_nat k = 0 → shr_r r = false ∧ shr_s r = false).
Proof.
  intros Hm. induction k as [| k IH]; cbn zeta.
  - cbn. rewrite Z.div_1_r. auto.
  - cbn zeta in IH. destruct IH as [IHm IHx].
    rewrite Nat.iter_succ.
    set (r := Nat.iter k shr_1 _) in *.
    assert (Hpos : 0 < 2 ^ Z.of_nat k) by (apply Z.pow_pos_nonneg; lia).
    assert (Hr : 0 <= shr_m r) by (rewrite IHm; apply Z.div_pos; lia).
    rewrite shr_1_spec by exact Hr. cbn [shr_m shr_r shr_s].
    rewrite Nat2Z.inj_succ, Z.pow_succ_r by lia.
    split.
    + rewrite Z.div2_div, IHm, Z.div_div by lia. f_equal. lia.
    + intros Hmod.
      assert (Hdiv : m = 2 ^ Z.of_nat k * (2 * (m / (2 * 2 ^ Z.of_nat k)))).
      { pose proof (Z.div_mod m (2 * 2 ^ Z.of_nat k) ltac:(lia)). lia. }
      assert (Hmod' : m mod 2 ^ Z.of_nat k = 0).
      { rewrite Hdiv, Z.mul_comm. apply Z.mod_mul. lia. }
      destruct (IHx Hmod') as [-> ->]. split; [| reflexivity].
      rewrite IHm. rewrite Hdiv at 1. rewrite Z.mul_comm, Z.div_mul by lia.
      rewrite Z.odd_mul. reflexivity.
Qed.

Lemma shr_snd (r : shr_record) (e n : Z) : snd (shr r e n) = e + Z.max n 0.
Proof. destruct n; cbn [shr snd]; lia. Qed.

Lemma round_nearest_even_bounds (r : shr_record) :
  shr_m r <= round_nearest_even (shr_m r) (loc_of_shr_record r) <= shr_m r + 1 ∧
  (shr_r r = false → shr_s r = false →
   round_nearest_even (shr_m r) (loc_of_shr_record r) = shr_m r).
Proof.
  destruct r as [m [] []]; cbn; try destruct (Z.even m); split; intros; (lia || congruence).
Qed.

(** A mantissa at most [2^(-e)], shifted and rounded to nearest, is at
    most [2^(-e')] at the new exponent [e']. *)
Lemma shr_exact_bound (m e n : Z) :
  0 <= m <= 2 ^ (- e) →
  snd (shr {| shr_m := m; shr_r := false; shr_s := false |} e n) <= 0 →
  let r := fst (shr {| shr_m := m; shr_r := false; shr_s := false |} e n) in
  let e' := snd (shr {| shr_m := m; shr_r := false; shr_s := false |} e n) in
  0 <= shr_m r <= round_nearest_even (shr_m r) (loc_of_shr_record r) ∧
  round_nearest_even (shr_m r) (loc_of_shr_record r) <= 2 ^ (- e').
Proof.
  intros [Hm Hle] He'. destruct n as [| p | p]; cbn [shr fst snd] in *.
  - cbn. lia.
  - rewrite iter_pos_nat.
    destruct (iter_shr_1_spec m (Pos.to_nat p) Hm) as [Hq Hx].
    rewrite positive_nat_Z in Hq, Hx.
    set (r := Nat.iter _ _ _) in *.
    destruct (round_nearest_even_bounds r) as [[Hlo Hhi] Hexact].
    set (B := 2 ^ (- (e + Zpos p))).
    assert (HP : 0 < 2 ^ Zpos p) by (apply Z.pow_pos_nonneg; lia).
    assert (HB : 0 < B) by (apply Z.pow_pos_nonneg; lia).
    assert (Hsplit : 2 ^ (- e) = 2 ^ Zpos p * B).
    { unfold B. rewrite <- Z.pow_add_r by lia. f_equal. lia. }
    assert (Hq0 : 0 <= shr_m r) by (rewrite Hq; apply Z.div_pos; lia).
    assert (HqB : shr_m r <= B).
    { rewrite Hq. apply Z.div_le_upper_bound; lia. }
    split; [lia |].
    destruct (Z.eq_dec (shr_m r) B) as [Heq | Hne]; [| lia].
    assert (Hmeq : m = B * 2 ^ Zpos p).
    { pose proof (Z.mul_div_le m (2 ^ Zpos p) HP) as Hd. rewrite <- Hq, Heq in Hd. lia. }
    assert (Hmod : m mod 2 ^ Zpos p = 0) by (rewrite Hmeq; apply Z.mod_mul; lia).
    destruct (Hx Hmod) as [Hr Hs]. rewrite (Hexact Hr Hs). lia.
  - cbn. lia.
Qed.

(** ** Rounding a value of at most one *)

Lemma within_unit_finite (m : positive) (e : Z) :
  e <= 0 → Zpos m <= 2 ^ (- e) → within 0 1 (S754_finite false m e) = true.
Proof.
  intros He Hm. unfold within. cbn [SF2Q]. unfold F2Q.
  apply andb_true_intro. rewrite !Qle_bool_iff. unfold Qle.
  destruct e as [| p | p]; try lia; cbn [Qnum Qden inject_Z].
  - cbn in Hm. lia.
  - change (- Zneg p) with (Zpos p) in Hm. rewrite Pos2Z.inj_pow. lia.
Qed.

Lemma within_half_bound (s : bool) (m : positive) (e : Z) :
  within (-1 # 2) (1 # 2) (S754_finite s m e) = true →
  e < 0 ∧ 2 * Zpos m <= 2 ^ (- e).
Proof.
  unfold within. cbn [SF2Q]. unfold F2Q. intros H.
  apply andb_prop in H. rewrite !Qle_bool_iff in H. unfold Qle in H.
  destruct e as [| p | p].
  - destruct s; cbn in H; lia.
  - assert (0 < 2 ^ Zpos p) by (apply Z.pow_pos_nonneg; lia).
    destruct s; cbn [Qnum Qden inject_Z Qopp] in H; nia.
  - change (- Zneg p) with (Zpos p).
    destruct s; cbn [Qnum Qden inject_Z Qopp] in H; rewrite Pos2Z.inj_pow in H; lia.
Qed.

Section Rounding.

Variables prec emax : Z.
Hypothesis Hprec : 2 <= prec.
Hypothesis Hemax : prec <= emax.

Lemma shr_fexp_snd_bounds (m e : Z) (l : location) :
  0 <= m <= 2 ^ (- e) → e <= 0 →
  e <= snd (shr_fexp prec emax m e l) <= 0.
Proof using Hprec Hemax.
  intros Hm He. unfold shr_fexp. rewrite shr_snd.
  pose proof (Zdigits2_le_pow m (- e) ltac:(lia) Hm) as Hd.
  unfold fexp, emin. lia.
Qed.

(** Rounding to nearest even a non-negative value of at most one gives a
    finite float between zero and one. *)
Lemma binary_round_aux_unit (m e : Z) :
  0 <= m <= 2 ^ (- e) → e <= 0 →
  within 0 1 (binary_round_aux prec emax false m e loc_Exact) = true.
Proof using Hprec Hemax.
  intros Hm He. unfold binary_round_aux.
  pose proof (shr_fexp_snd_bounds m e loc_Exact Hm He) as He1.
  destruct (shr_fexp prec emax m e loc_Exact) as [r1 e1] eqn:H1.
  unfold shr_fexp in H1. cbn [shr_record_of_loc snd] in *.
  pose proof (shr_exact_bound m e (fexp prec emax (Zdigits2 m + e) - e) Hm) as Hb1. rewrite H1 in Hb1.
  cbn [fst snd] in Hb1. specialize (Hb1 ltac:(lia)).
  set (m1 := round_nearest_even (shr_m r1) (loc_of_shr_record r1)) in *.
  assert (Hm1 : 0 <= m1 <= 2 ^ (- e1)) by lia.
  pose proof (shr_fexp_snd_bounds m1 e1 loc_Exact Hm1 ltac:(lia)) as He2.
  destruct (shr_fexp prec emax m1 e1 loc_Exact) as [r2 e2] eqn:H2.
  unfold shr_fexp in H2. cbn [shr_record_of_loc snd] in *.
  pose proof (shr_exact_bound m1 e1 (fexp prec emax (Zdigits2 m1 + e1) - e1) Hm1) as Hb2. rewrite H2 in Hb2.
  cbn [fst snd] in Hb2. specialize (Hb2 ltac:(lia)).
  destruct (shr_m r2) as [| p | p] eqn:Hp; [reflexivity | | lia].
  replace (e2 <=? emax - prec) with true by (symmetry; apply Z.leb_le; lia).
  apply within_unit_finite; lia.
Qed.

Lemma binary_normalize_unit (m e : Z) :
  0 <= m <= 2 ^ (- e) → e <= 0 →
  within 0 1 (binary_normalize prec emax m e false) = true.
Proof using Hprec Hemax.
  intros Hm He. destruct m as [| p | p]; [reflexivity | | lia].
  cbn [binary_normalize]. unfold binary_round.
  destruct (shl_align_spec p e (fexp prec emax (Zpos (digits2_pos p) + e))) as [Hs Hf].
  destruct (shl_align p e _) as [mz ez]. cbn [fst snd] in Hs, Hf.
  rewrite <- Hs in Hf.
  apply binary_round_aux_unit; [| lia].
  rewrite Hf. split; [lia |].
  replace (- ez) with (- e + (e - ez)) by lia.
  rewrite Z.pow_add_r by lia.
  apply Z.mul_le_mono_nonneg_r; [apply Z.pow_nonneg |]; lia.
Qed.

Lemma half_mantissa : Zpos (Pos.iter xO 1%positive (Z.to_pos (prec - 1))) = 2 ^ (prec - 1).
Proof using Hprec. rewrite iter_xO_pow, Z2Pos.id by lia. lia. Qed.

(** Adding one half to a value between minus one half and one half gives
    a value between zero and one, after rounding too. *)
Lemma SFadd_half_unit (x : float) :
  within (-1 # 2) (1 # 2) x = true →
  within 0 1 (SFadd prec emax x (half prec)) = true.
Proof using Hprec Hemax.
  intros Hx. pose proof half_mantissa as Hh. unfold half.
  destruct x as [s | s | | sx mx ex]; try discriminate Hx.
  - cbn [SFadd]. apply within_unit_finite; [lia |].
    rewrite Hh, Z.opp_involutive. apply Z.pow_le_mono_r; lia.
  - apply within_half_bound in Hx. destruct Hx as [Hex Hmx].
    cbn [SFadd]. cbv zeta.
    set (ez := Z.min ex (- prec)).
    destruct (shl_align_spec mx ex ez) as [_ Ha].
    destruct (shl_align_spec (Pos.iter xO 1%positive (Z.to_pos (prec - 1))) (- prec) ez)
      as [_ Hb].
    replace (Z.min ex ez) with ez in Ha by lia.
    replace (Z.min (- prec) ez) with ez in Hb by lia.
    rewrite Ha, Hb, Hh. clear Ha Hb Hh.
    assert (Hez : ez <= 0) by lia.
    assert (HA : 2 * (Zpos mx * 2 ^ (ex - ez)) <= 2 ^ (- ez)).
    { replace (- ez) with (- ex + (ex - ez)) by lia.
      rewrite Z.pow_add_r by lia.
      assert (0 <= 2 ^ (ex - ez)) by (apply Z.pow_nonneg; lia). nia. }
    assert (HB : 2 * (2 ^ (prec - 1) * 2 ^ (- prec - ez)) = 2 ^ (- ez)).
    { rewrite <- Z.pow_add_r by lia.
      rewrite <- Z.pow_succ_r by lia. f_equal. lia. }
    assert (0 < Zpos mx * 2 ^ (ex - ez)).
    { apply Z.mul_pos_pos; [lia | apply Z.pow_pos_nonneg; lia]. }
    apply binary_normalize_unit; [| exact Hez].
    destruct sx; cbn [cond_Zopp]; lia.
Qed.

End Rounding.

(** * Facts about arrays *)

Lemma setitem_isnan_row (r : list float) (v : float) :
  zip_with (fun x (b : bool) => if b then v else x) r (map isnan r)
  = map (fun x => if isnan x then v else x) r.
Proof. induction r as [| x r IH]; cbn; [reflexivity | by rewrite IH]. Qed.

(** [a[numpy.isnan(a)] = 0] replaces the NaN entries and only them. *)
Lemma setitem_isnan_zero (a : array) :
  setitem_mask a (np_isnan a) fzero = amap nan_to_zero a.
Proof.
  unfold setitem_mask, np_isnan, amap.
  induction a as [| r a IH]; cbn; [reflexivity |].
  rewrite IH. f_equal. apply setitem_isnan_row.
Qed.

Lemma nan_to_zero_not_nan (x : float) : isnan (nan_to_zero x) = false.
Proof. by destruct x. Qed.

Lemma nan_to_zero_id (x : float) : isnan x = false → nan_to_zero x = x.
Proof. by destruct x. Qed.

Lemma amap_no_nan (a : array) :
  array_all (fun x => negb (isnan x)) (amap nan_to_zero a) = true.
Proof.
  unfold array_all, amap. rewrite forallb_forall. intros r Hr.
  apply in_map_iff in Hr. destruct Hr as [r' [<- _]].
  rewrite forallb_forall. intros x Hx.
  apply in_map_iff in Hx. destruct Hx as [x' [<- _]].
  by rewrite nan_to_zero_not_nan.
Qed.

(** Indexing the first and the last row. *)
Lemma np_row_first (a : array) :
  np_row a 0 = match head a with Some r => inr r | None => inl IndexError end.
Proof.
  unfold np_row. destruct a as [| r a]; [reflexivity |].
  cbn [length head]. replace (0 <? 0) with false by reflexivity.
  replace ((0 <=? 0) && (0 <? Z.of_nat (S (length a)))) with true; [reflexivity |].
  symmetry. apply andb_true_intro. split; [reflexivity | apply Z.ltb_lt; lia].
Qed.

Lemma np_row_last (a : array) :
  np_row a (-1) = match last a with Some r => inr r | None => inl IndexError end.
Proof.
  unfold np_row. replace (-1 <? 0) with true by reflexivity.
  destruct a as [| r a]; [reflexivity |].
  rewrite last_lookup. cbn [length Nat.pred].
  replace ((0 <=? -1 + Z.of_nat (S (length a)))
           && (-1 + Z.of_nat (S (length a)) <? Z.of_nat (S (length a)))) with true.
  - replace (Z.to_nat (-1 + Z.of_nat (S (length a)))) with (length a) by lia.
    reflexivity.
  - symmetry. apply andb_true_intro. split; [apply Z.leb_le | apply Z.ltb_lt]; lia.
Qed.

(** The closed path of [n] rows has [n + 2] rows; it starts with the last
    row, goes through the rows in order and ends with the first row. *)
Lemma closed_path_rows (ij : array) (n : nat) :
  length ij = S n →
  length (closed_path ij) = (S n + 2)%nat ∧
  closed_path ij !! 0%nat = ij !! n ∧
  (∀ k, (k < S n)%nat → closed_path ij !! S k = ij !! k) ∧
  closed_path ij !! (S n + 1)%nat = ij !! 0%nat.
Proof.
  intros Hn. unfold closed_path. rewrite last_lookup, Hn. cbn [Nat.pred].
  destruct ij as [| r0 ij]; [discriminate |]. unfold option_list. cbn [head option_rect].
  assert (Hl : is_Some ((r0 :: ij) !! n)) by (apply lookup_lt_is_Some; lia).
  destruct Hl as [rl Hl]. rewrite Hl. cbn [option_rect app].
  split; [| split; [| split]].
  - cbn [length]. rewrite length_app. cbn [length] in *. lia.
  - reflexivity.
  - intros k Hk. cbn [lookup list_lookup].
    change (r0 :: ij ++ [r0]) with ((r0 :: ij) ++ [r0]).
    apply lookup_app_l. lia.
  - assert (n = length ij) as -> by (cbn [length] in Hn; lia).
    replace (S (length ij) + 1)%nat with (S (S (length ij + 0))) by lia.
    cbn [lookup list_lookup]. apply list_lookup_middle. lia.
Qed.

Lemma amap_lookup_row (f : float → float) (a : array) (i : nat) :
  amap f a !! i = map f <$> a !! i.
Proof. unfold amap. apply list_lookup_fmap. Qed.

Lemma amap_length (f : float → float) (a : array) : length (amap f a) = length a.
Proof. unfold amap. apply length_map. Qed.

Lemma array_all_amap (p q : float → bool) (f : float → float) (a : array) :
  (∀ x, p x = true → q (f x) = true) →
  array_all p a = true → array_all q (amap f a) = true.
Proof.
  intros Hpq. unfold array_all, amap. rewrite !forallb_forall. intros Ha r Hr.
  apply in_map_iff in Hr. destruct Hr as [r' [<- Hr']].
  specialize (Ha r' Hr'). rewrite forallb_forall in Ha.
  rewrite forallb_forall. intros x Hx.
  apply in_map_iff in Hx. destruct Hx as [x' [<- Hx']]. auto.
Qed.

Lemma py_not_inv (c : colour_arg) (b : bool) :
  py_not c = inr b → py_bool c = inr (negb b).
Proof.
  unfold py_not. destruct (py_bool c) as [e | b']; [discriminate |].
  intros [= <-]. by rewrite negb_involutive.
Qed.

(** * Facts about the store *)

Lemma lookup_app_at (s t : store) (l k : nat) :
  l = (length s + k)%nat → (s ++ t) !! l = t !! k.
Proof. intros ->. rewrite lookup_app_r by lia. f_equal. lia. Qed.

Lemma lookup_app_new (s t : store) (k : nat) : (s ++ t) !! (length s + k)%nat = t !! k.
Proof. by apply lookup_app_at. Qed.

Lemma read_array_at (s t : store) (l k : nat) :
  l = (length s + k)%nat →
  read_array l (s ++ t)
  = match t !! k with
    | Some (Ndarray a) => (s ++ t, inr a)
    | _ => (s ++ t, inl AttributeError)
    end.
Proof. intros Hl. unfold read_array. by rewrite (lookup_app_at s t l k Hl). Qed.

Lemma write_array_at (s t : store) (l k : nat) (a : array) :
  l = (length s + k)%nat →
  write_array l a (s ++ t)
  = match t !! k with
    | Some (Ndarray _) => (s ++ <[k := Ndarray a]> t, inr tt)
    | _ => (s ++ t, inl AttributeError)
    end.
Proof.
  intros Hl. unfold write_array. rewrite (lookup_app_at s t l k Hl). subst l.
  destruct (t !! k) as [[] |]; try reflexivity. by rewrite insert_app_r.
Qed.

Lemma mesh_get_vertices_at (s t : store) (l k : nat) :
  l = (length s + k)%nat →
  mesh_get_vertices l (s ++ t)
  = match t !! k with
    | Some (BoxObj bx) => (s ++ t, inr (box_vertices bx))
    | _ => (s ++ t, inl AttributeError)
    end.
Proof. intros Hl. unfold mesh_get_vertices. by rewrite (lookup_app_at s t l k Hl). Qed.

Lemma mesh_set_vertices_at (s t : store) (l k : nat) (v : loc) :
  l = (length s + k)%nat →
  mesh_set_vertices l v (s ++ t)
  = match t !! k with
    | Some (BoxObj bx) => (s ++ <[k := BoxObj (with_vertices bx v)]> t, inr tt)
    | _ => (s ++ t, inl AttributeError)
    end.
Proof.
  intros Hl. unfold mesh_set_vertices. rewrite (lookup_app_at s t l k Hl). subst l.
  destruct (t !! k) as [[] |]; try reflexivity. by rewrite insert_app_r.
Qed.

Lemma deref_array_at (s t : store) (l k : nat) :
  l = (length s + k)%nat → deref_array (s ++ t) l = deref_array t k.
Proof. intros Hl. unfold deref_array. by rewrite (lookup_app_at s t l k Hl). Qed.

Lemma deref_box_at (s t : store) (l k : nat) :
  l = (length s + k)%nat → deref_box (s ++ t) l = deref_box t k.
Proof. intros Hl. unfold deref_box. by rewrite (lookup_app_at s t l k Hl). Qed.

Lemma deref_line_at (s t : store) (l k : nat) :
  l = (length s + k)%nat → deref_line (s ++ t) l = deref_line t k.
Proof. intros Hl. unfold deref_line. by rewrite (lookup_app_at s t l k Hl). Qed.

Lemma store_wf_nil : store_wf [].
Proof. intros l o p H. rewrite lookup_nil in H. discriminate. Qed.

Lemma parent_in_None (s : store) : parent_in s None.
Proof. intros p H. discriminate. Qed.

Lemma box_positions_at (s t : store) (l k : nat) (b : Box) :
  l = (length s + k)%nat → t !! k = Some (BoxObj b) →
  box_positions (s ++ t) l = deref_array (s ++ t) (box_vertices b).
Proof.
  intros Hl Hb. unfold box_positions.
  rewrite (deref_box_at s t l k Hl). unfold deref_box. by rewrite Hb.
Qed.

Lemma store_wf_root : store_wf [NodeObj None].
Proof.
  intros l o p Hl Hp. destruct l as [| l]; cbn in Hl.
  - injection Hl as <-. discriminate Hp.
  - discriminate Hl.
Qed.

Lemma filter_none {A} (f : A → bool) (l : list A) :
  (∀ x, In x l → f x = false) → List.filter f l = [].
Proof.
  induction l as [| x l IH]; cbn; intros H; [reflexivity |].
  rewrite (H x) by auto. apply IH. auto.
Qed.

(** The children of an object created after [s], in a store [s ++ t]
    where [s] has no dangling parent, are found among [t]. *)
Lemma children_app (s t : store) (n : nat) :
  store_wf s → (length s <= n)%nat →
  children (s ++ t) n
  = map (Nat.add (length s))
      (List.filter (fun j => match t !! j with
                             | Some o => has_parent n o
                             | None => false
                             end) (seq 0 (length t))).
Proof.
  intros Hwf Hn. unfold children.
  rewrite length_app, seq_app, List.filter_app, filter_none.
  - cbn [app].
    assert (Hseq : seq (0 + length s) (length t)
                   = map (Nat.add (length s)) (seq 0 (length t))).
    { rewrite Nat.add_comm. symmetry. apply (fmap_add_seq (length s) 0). }
    rewrite Hseq, filter_map_swap. f_equal. apply List.filter_ext. intros j.
    unfold is_child_of. by rewrite lookup_app_new.
  - intros l Hl. apply in_seq in Hl. unfold is_child_of.
    rewrite lookup_app_l by lia.
    destruct (s !! l) as [o |] eqn:Ho; [| reflexivity].
    unfold has_parent. destruct (parent_of o) as [p |] eqn:Hp; [| reflexivity].
    apply Nat.eqb_neq. pose proof (Hwf l o p Ho Hp). lia.
Qed.

Lemma has_parent_old (s : store) (n : nat) (o : object) :
  parent_in s (parent_of o) → (length s <= n)%nat → has_parent n o = false.
Proof.
  unfold has_parent, parent_in. intros H Hn.
  destruct (parent_of o) as [p |]; [| reflexivity].
  apply Nat.eqb_neq. specialize (H p eq_refl). lia.
Qed.

(** The children of an object of [s] in a store [s ++ t]: those it had,
    then those among [t]. *)
Lemma children_old (s t : store) (p : nat) :
  (p < length s)%nat →
  children (s ++ t) p
  = children s p
    ++ map (Nat.add (length s))
         (List.filter (fun j => match t !! j with
                                | Some o => has_parent p o
                                | None => false
                                end) (seq 0 (length t))).
Proof.
  intros Hp. unfold children.
  rewrite length_app, seq_app, List.filter_app. f_equal.
  - apply List.filter_ext_in. intros l Hl. apply in_seq in Hl.
    unfold is_child_of. by rewrite lookup_app_l by lia.
  - assert (Hseq : seq (0 + length s) (length t)
                   = map (Nat.add (length s)) (seq 0 (length t))).
    { rewrite Nat.add_comm. symmetry. apply (fmap_add_seq (length s) 0). }
    rewrite Hseq, filter_map_swap. f_equal. apply List.filter_ext. intros j.
    unfold is_child_of. by rewrite lookup_app_new.
Qed.

Lemma shape_amap (f : float → float) (a : array) : shape (amap f a) = shape a.
Proof.
  unfold shape, amap. rewrite List.map_map. apply List.map_ext.
  intros r. apply length_map.
Qed.

Lemma amap_nan_free (a : array) :
  array_all (λ x, negb (isnan x)) a = true → amap nan_to_zero a = a.
Proof.
  unfold array_all, amap. rewrite forallb_forall. intros Ha.
  rewrite <- (List.map_id a) at 2. apply List.map_ext_in. intros r Hr.
  specialize (Ha r Hr). rewrite forallb_forall in Ha.
  rewrite <- (List.map_id r) at 2. apply List.map_ext_in. intros x Hx.
  apply nan_to_zero_id. specialize (Ha x Hx). by destruct (isnan x).
Qed.

(** Adding one half to a NaN or to an infinity gives it back. *)
Lemma SFadd_half_non_finite (prec emax : Z) (x : float) :
  isfinite x = false → SFadd prec emax x (half prec) = x.
Proof. destruct x as [? | [] | | ? ? ?]; try discriminate; reflexivity. Qed.

Lemma has_parent_decide (p : nat) (o : object) :
  has_parent p o = bool_decide (parent_of o = Some p).
Proof.
  unfold has_parent. destruct (parent_of o) as [q |].
  - destruct (Nat.eqb_spec q p) as [-> | Hne].
    + by rewrite bool_decide_eq_true_2.
    + rewrite bool_decide_eq_false_2; [reflexivity | congruence].
  - by rewrite bool_decide_eq_false_2.
Qed.

(** An object of [s] gains for children, in [s ++ o :: t], the object
    [o] when [o] has it for parent, if nothing of [t] has. *)
Lemma children_attach (s t : store) (o : object) (p : nat) :
  (p < length s)%nat →
  Forall (λ o', has_parent p o' = false) t →
  children (s ++ o :: t) p
  = children s p ++ (if bool_decide (parent_of o = Some p) then [length s] else []).
Proof.
  intros Hp Ht. rewrite children_old by exact Hp. f_equal.
  cbn [length seq List.filter lookup list_lookup].
  rewrite filter_none.
  - rewrite has_parent_decide.
    destruct (bool_decide (parent_of o = Some p)); cbn [map]; [| reflexivity].
    f_equal. lia.
  - intros j Hj. apply in_seq in Hj. destruct j as [| j]; [lia |].
    cbn [lookup list_lookup]. destruct (t !! j) as [o' |] eqn:Ho'; [| reflexivity].
    exact (proj1 (Forall_lookup _ _) Ht j o' Ho').
Qed.

(** * What the constructors do to the store *)

Section VisualsFacts.

Variables prec emax : Z.
Variable create_box :
  Z → Z → Z → option (list string) →
  box_vertex_data * list (list Z) * list (list Z).
Variable get_RGB_colourspace : string → exn + RGB_Colourspace.
Variable RGB_to_XYZ : array → list float → list float → array → array.
Variable XYZ_to_reference_colourspace : array → list float → string → exn + array.
Variable xy_to_XYZ : array → array.
Variable DEFAULT_PLOTTING_ILLUMINANT : list float.
Variable CHROMATICITY_DIAGRAM_TRANSFORMATIONS : gmap string (gmap string ij_transformation).

Local Abbreviation cube := (RGB_identity_cube prec emax create_box).
Local Abbreviation cube_vertices := (identity_vertices prec emax create_box).
Local Abbreviation cube_box := (identity_box create_box).
Local Abbreviation volume :=
  (RGB_colourspace_volume_visual prec emax create_box get_RGB_colourspace
     RGB_to_XYZ XYZ_to_reference_colourspace).
Local Abbreviation triangle :=
  (RGB_colourspace_triangle_visual get_RGB_colourspace xy_to_XYZ
     DEFAULT_PLOTTING_ILLUMINANT CHROMATICITY_DIAGRAM_TRANSFORMATIONS).

(** An identity cube adds two objects to the store: the vertex array,
    moved by one half, and the box whose mesh points to it. *)
Lemma RGB_identity_cube_run (ws hs ds : Z) (planes : option (list string))
    (uc : colour_arg) (uo : float) (vc wf : bool) (parent : option loc)
    (s : store) :
  cube ws hs ds planes uc uo vc wf parent s
  = (s ++ [Ndarray (cube_vertices ws hs ds planes);
           BoxObj (cube_box ws hs ds planes uc uo vc wf parent (length s))],
     inr (S (length s))).
Proof.
  unfold RGB_identity_cube, identity_vertices, identity_box, mkBox.
  destruct (create_box ws hs ds planes) as [[v f] o]. cbn [fst snd].
  unfold bind, alloc, ndarray_iadd, bind.
  rewrite <- app_assoc. cbn [app].
  rewrite (mesh_get_vertices_at s _ _ 1) by (rewrite length_app; cbn; lia).
  cbn [lookup list_lookup box_vertices].
  rewrite (read_array_at s _ _ 0) by lia. cbn [lookup list_lookup].
  rewrite (write_array_at s _ _ 0) by lia. cbn [lookup list_lookup insert list_insert].
  rewrite (mesh_set_vertices_at s _ _ 1) by (rewrite length_app; cbn; lia).
  cbn [lookup list_lookup insert list_insert with_vertices].
  unfold ret. rewrite length_app. cbn [length]. repeat f_equal; lia.
Qed.

Local Abbreviation converted :=
  (reference_vertices prec emax create_box RGB_to_XYZ XYZ_to_reference_colourspace).
Local Abbreviation created := (volume_objects prec emax create_box).

(** A volume visual that meets no exception adds the objects of
    [volume_objects] and returns the node. *)
Lemma volume_visual_run (cs ref : string) (segments : Z) (uc : colour_arg)
    (uo : float) (wireframe : bool) (wc : colour_arg) (wo : float)
    (parent : option loc) (s : store)
    (c : RGB_Colourspace) (vf vw : bool) (value : array) :
  get_RGB_colourspace cs = inr c →
  py_not uc = inr vf →
  converted c ref segments = inr value →
  (wireframe = true → py_not wc = inr vw) →
  volume cs ref segments uc uo wireframe wc wo parent s
  = (s ++ created (length s) parent segments uc uo vf wireframe wc wo vw value,
     inr (length s)).
Proof.
  intros Hcs Hvf Hval Hvw. unfold reference_vertices in Hval.
  unfold RGB_colourspace_volume_visual, volume_objects, Node.
  unfold bind, alloc, lift, ret. cbn beta iota.
  rewrite Hcs, Hvf, RGB_identity_cube_run.
  rewrite <- app_assoc, length_app. cbn [app length].
  rewrite (mesh_get_vertices_at s _ _ 2) by lia.
  cbn [lookup list_lookup identity_box box_vertices].
  rewrite (read_array_at s _ _ 1) by lia. cbn [lookup list_lookup].
  rewrite Hval. unfold ndarray_setitem_isnan, bind.
  rewrite <- app_assoc, length_app. cbn [app length].
  rewrite (read_array_at s _ _ 3) by lia. cbn [lookup list_lookup].
  rewrite (write_array_at s _ _ 3) by lia. cbn [lookup list_lookup insert list_insert].
  rewrite setitem_isnan_zero.
  rewrite (mesh_set_vertices_at s _ _ 2) by lia.
  cbn [lookup list_lookup insert list_insert].
  destruct wireframe.
  - rewrite (Hvw eq_refl), RGB_identity_cube_run.
    rewrite <- app_assoc, length_app. cbn [app length].
    rewrite (mesh_set_vertices_at s _ _ 5) by lia.
    cbn [lookup list_lookup insert list_insert]. reflexivity.
  - reflexivity.
Qed.

Local Abbreviation volume_raises :=
  (volume_exception prec emax create_box get_RGB_colourspace RGB_to_XYZ
     XYZ_to_reference_colourspace).

(** Whatever happens, a volume visual only adds objects to the store,
    and what it raises or returns is told by [volume_exception]. *)
Lemma volume_visual_outcome (cs ref : string) (segments : Z) (uc : colour_arg)
    (uo : float) (wireframe : bool) (wc : colour_arg) (wo : float)
    (parent : option loc) (s : store) :
  ∃ t, volume cs ref segments uc uo wireframe wc wo parent s
       = (s ++ t,
          match volume_raises cs ref segments uc wireframe wc with
          | Some e => inl e
          | None => inr (length s)
          end).
Proof.
  unfold volume_exception.
  destruct (get_RGB_colourspace cs) as [e | c] eqn:Hcs.
  { exists [NodeObj parent].
    unfold RGB_colourspace_volume_visual, Node, bind, alloc, lift.
    by rewrite Hcs. }
  destruct (py_not uc) as [e | vf] eqn:Hvf.
  { exists [NodeObj parent].
    unfold RGB_colourspace_volume_visual, Node, bind, alloc, lift.
    by rewrite Hcs, Hvf. }
  destruct (converted c ref segments) as [e | value] eqn:Hval.
  { eexists.
    unfold RGB_colourspace_volume_visual, Node, bind, alloc, lift.
    rewrite Hcs, Hvf, RGB_identity_cube_run.
    rewrite <- app_assoc, length_app. cbn [app length].
    rewrite (mesh_get_vertices_at s _ _ 2) by lia.
    cbn [lookup list_lookup identity_box box_vertices].
    rewrite (read_array_at s _ _ 1) by lia. cbn [lookup list_lookup].
    unfold reference_vertices in Hval. rewrite Hval. reflexivity. }
  destruct wireframe eqn:Hw.
  - destruct (py_not wc) as [e | vw] eqn:Hvw.
    + eexists.
      unfold RGB_colourspace_volume_visual, Node, bind, alloc, lift.
      rewrite Hcs, Hvf, RGB_identity_cube_run.
      rewrite <- app_assoc, length_app. cbn [app length].
      rewrite (mesh_get_vertices_at s _ _ 2) by lia.
      cbn [lookup list_lookup identity_box box_vertices].
      rewrite (read_array_at s _ _ 1) by lia. cbn [lookup list_lookup].
      unfold reference_vertices in Hval. rewrite Hval.
      unfold ndarray_setitem_isnan, bind.
      rewrite <- app_assoc, length_app. cbn [app length].
      rewrite (read_array_at s _ _ 3) by lia. cbn [lookup list_lookup].
      rewrite (write_array_at s _ _ 3) by lia.
      cbn [lookup list_lookup insert list_insert].
      rewrite (mesh_set_vertices_at s _ _ 2) by lia.
      cbn [lookup list_lookup insert list_insert].
      rewrite Hvw. reflexivity.
    + eexists. apply (volume_visual_run _ _ _ _ _ _ _ _ _ _ c vf vw value); auto.
  - eexists. apply (volume_visual_run _ _ _ _ _ _ _ _ _ _ c vf false value); auto.
    discriminate.
Qed.

(** The children of the node of a volume visual: the filled cube, and
    with [wireframe] the wireframe cube. *)
Lemma volume_children (s : store) (parent : option loc) (segments : Z)
    (uc : colour_arg) (uo : float) (vf wireframe : bool) (wc : colour_arg)
    (wo : float) (vw : bool) (value : array) :
  store_wf s → parent_in s parent →
  children (s ++ created (length s) parent segments uc uo vf wireframe wc wo vw value)
    (length s)
  = (length s + 2)%nat :: (if wireframe then [(length s + 5)%nat] else []).
Proof.
  intros Hwf Hpar. rewrite children_app by (auto; lia).
  unfold volume_objects.
  assert (Hnode : has_parent (length s) (NodeObj parent) = false).
  { apply (has_parent_old s); [exact Hpar | lia]. }
  destruct wireframe; cbn [app length seq List.filter lookup list_lookup];
    rewrite Hnode; cbn [has_parent parent_of identity_box box_parent];
    rewrite ?Nat.eqb_refl; cbn [map]; repeat f_equal; lia.
Qed.

Local Abbreviation coordinates := (primaries_ij xy_to_XYZ DEFAULT_PLOTTING_ILLUMINANT).
Local Abbreviation triangle_raises :=
  (triangle_exception get_RGB_colourspace xy_to_XYZ DEFAULT_PLOTTING_ILLUMINANT
     CHROMATICITY_DIAGRAM_TRANSFORMATIONS).

(** A triangle visual that meets no exception adds two objects: the
    array of the points, without NaN, and the line. *)
Lemma triangle_visual_run (cs diagram : string) (uc : colour_arg)
    (uo width : float) (parent : option loc) (s : store)
    (c : RGB_Colourspace) (d : gmap string ij_transformation)
    (XYZ_to_ij : ij_transformation) :
  get_RGB_colourspace cs = inr c →
  CHROMATICITY_DIAGRAM_TRANSFORMATIONS !! diagram = Some d →
  d !! "XYZ_to_ij" = Some XYZ_to_ij →
  coordinates XYZ_to_ij c ≠ [] →
  triangle cs diagram uc uo width parent s
  = (s ++ [Ndarray (amap nan_to_zero (closed_path (coordinates XYZ_to_ij c)));
           LineObj (triangle_line uc uo width parent (length s))],
     inr (S (length s))).
Proof.
  intros Hcs Hd Hf Hne. unfold primaries_ij in *.
  unfold RGB_colourspace_triangle_visual, mkLine, dict_getitem.
  unfold bind, alloc, lift, ret. cbn beta iota.
  rewrite Hcs, Hd, Hf, np_row_last, np_row_first.
  set (ij := XYZ_to_ij _ _) in *.
  unfold closed_path, np_vstack.
  destruct ij as [| r0 ij']; [done |].
  destruct (last (r0 :: ij')) as [rl |] eqn:Hlast.
  2: { apply last_None in Hlast. discriminate. }
  unfold option_list. cbn [head option_rect concat app].
  unfold ndarray_setitem_isnan, bind.
  rewrite (read_array_at s _ _ 0) by lia. cbn [lookup list_lookup].
  rewrite (write_array_at s _ _ 0) by lia.
  cbn [lookup list_lookup insert list_insert].
  rewrite setitem_isnan_zero, <- app_assoc, length_app.
  cbn [app length].
  unfold triangle_line, triangle_colour. repeat f_equal; lia.
Qed.

(** Whatever happens, a triangle visual only adds objects to the store,
    and what it raises or returns is told by [triangle_exception]. *)
Lemma triangle_visual_outcome (cs diagram : string) (uc : colour_arg)
    (uo width : float) (parent : option loc) (s : store) :
  ∃ t, triangle cs diagram uc uo width parent s
       = (s ++ t,
          match triangle_raises cs diagram with
          | Some e => inl e
          | None => inr (S (length s))
          end).
Proof.
  unfold triangle_exception.
  destruct (get_RGB_colourspace cs) as [e | c] eqn:Hcs.
  { exists []. rewrite app_nil_r.
    unfold RGB_colourspace_triangle_visual, bind, lift. by rewrite Hcs. }
  destruct (CHROMATICITY_DIAGRAM_TRANSFORMATIONS !! diagram) as [d |] eqn:Hd.
  2: { exists []. rewrite app_nil_r.
       unfold RGB_colourspace_triangle_visual, bind, lift, dict_getitem.
       by rewrite Hcs, Hd. }
  destruct (d !! "XYZ_to_ij") as [f |] eqn:Hf.
  2: { exists []. rewrite app_nil_r.
       unfold RGB_colourspace_triangle_visual, bind, lift, dict_getitem.
       by rewrite Hcs, Hd, Hf. }
  destruct (coordinates f c) as [| r0 ij'] eqn:Hij.
  - exists []. rewrite app_nil_r.
    unfold RGB_colourspace_triangle_visual, bind, lift, dict_getitem.
    unfold primaries_ij in Hij. by rewrite Hcs, Hd, Hf, Hij.
  - eexists. apply (triangle_visual_run _ _ _ _ _ _ _ c d f); auto.
    by rewrite Hij.
Qed.

Lemma volume_returns_inv (cs ref : string) (segments : Z) (uc : colour_arg)
    (wireframe : bool) (wc : colour_arg) :
  volume_raises cs ref segments uc wireframe wc = None →
  ∃ c vf value vw,
    get_RGB_colourspace cs = inr c ∧ py_not uc = inr vf ∧
    converted c ref segments = inr value ∧
    (wireframe = true → py_not wc = inr vw).
Proof.
  unfold volume_exception.
  destruct (get_RGB_colourspace cs) as [e | c] eqn:Hcs; [discriminate |].
  destruct (py_not uc) as [e | vf] eqn:Hvf; [discriminate |].
  destruct (converted c ref segments) as [e | value] eqn:Hval; [discriminate |].
  destruct wireframe.
  - destruct (py_not wc) as [e | vw] eqn:Hvw; [discriminate |]. intros _.
    exists c, vf, value, vw. repeat split; auto.
  - intros _. exists c, vf, value, false. repeat split; auto. discriminate.
Qed.

Lemma triangle_returns_inv (cs diagram : string) :
  triangle_raises cs diagram = None →
  ∃ c d f,
    get_RGB_colourspace cs = inr c ∧
    CHROMATICITY_DIAGRAM_TRANSFORMATIONS !! diagram = Some d ∧
    d !! "XYZ_to_ij" = Some f ∧ coordinates f c ≠ [].
Proof.
  unfold triangle_exception.
  destruct (get_RGB_colourspace cs) as [e | c] eqn:Hcs; [discriminate |].
  destruct (CHROMATICITY_DIAGRAM_TRANSFORMATIONS !! diagram) as [d |] eqn:Hd;
    [| discriminate].
  destruct (d !! "XYZ_to_ij") as [f |] eqn:Hf; [| discriminate].
  destruct (coordinates f c) as [| r0 ij] eqn:Hij; [discriminate |]. intros _.
  exists c, d, f. rewrite Hij. repeat split; auto.
Qed.

(** The geometry of the objects created does not depend on the store
    they were added to. *)
Lemma identity_cube_geometry (ws hs ds : Z) (planes : option (list string))
    (uc : colour_arg) (uo : float) (vc wf : bool) (parent : option loc)
    (s : store) :
  box_geometry
    (s ++ [Ndarray (cube_vertices ws hs ds planes);
           BoxObj (cube_box ws hs ds planes uc uo vc wf parent (length s))])
    (S (length s))
  = Some (Some (cube_vertices ws hs ds planes),
          (if vc then Some (color (create_box ws hs ds planes).1.1) else None),
          uc, uo, wf).
Proof.
  unfold box_geometry.
  rewrite (deref_box_at s _ _ 1) by lia. cbn [deref_box lookup list_lookup].
  cbn [identity_box box_vertices box_vertex_colours box_uniform_colour
       box_uniform_opacity box_wireframe].
  rewrite (deref_array_at s _ _ 0) by lia. reflexivity.
Qed.

Lemma volume_filled_cube (s : store) (parent : option loc) (segments : Z)
    (uc : colour_arg) (uo : float) (vf wireframe : bool) (wc : colour_arg)
    (wo : float) (vw : bool) (value : array) :
  let s' := s ++ created (length s) parent segments uc uo vf wireframe wc wo vw value in
  deref_box s' (length s + 2)
  = Some (cube_box segments segments segments None uc uo vf false
            (Some (length s)) (length s + 3)) ∧
  deref_array s' (length s + 3) = Some (amap nan_to_zero value).
Proof.
  cbn zeta. unfold volume_objects.
  rewrite (deref_box_at s _ _ 2), (deref_array_at s _ _ 3) by lia.
  by destruct wireframe.
Qed.

Lemma volume_wireframe_cube (s : store) (parent : option loc) (segments : Z)
    (uc : colour_arg) (uo : float) (vf : bool) (wc : colour_arg)
    (wo : float) (vw : bool) (value : array) :
  deref_box (s ++ created (length s) parent segments uc uo vf true wc wo vw value)
    (length s + 5)
  = Some (cube_box segments segments segments None wc wo vw true
            (Some (length s)) (length s + 3)).
Proof. unfold volume_objects. by rewrite (deref_box_at s _ _ 5) by lia. Qed.

Lemma volume_geometry_run (s : store) (parent : option loc) (segments : Z)
    (uc : colour_arg) (uo : float) (vf wireframe : bool) (wc : colour_arg)
    (wo : float) (vw : bool) (value : array) :
  store_wf s → parent_in s parent →
  volume_geometry
    (s ++ created (length s) parent segments uc uo vf wireframe wc wo vw value)
    (length s)
  = Some (Some (amap nan_to_zero value),
          (if vf then Some (color (create_box segments segments segments None).1.1)
           else None), uc, uo, false)
    :: (if wireframe
        then [Some (Some (amap nan_to_zero value),
                    (if vw
                     then Some (color (create_box segments segments segments None).1.1)
                     else None), wc, wo, true)]
        else []).
Proof.
  intros Hwf Hpar. unfold volume_geometry. rewrite volume_children by assumption.
  cbn [map]. unfold box_geometry at 1.
  destruct (volume_filled_cube s parent segments uc uo vf wireframe wc wo vw value)
    as [Hf Hv].
  rewrite Hf. cbn [identity_box box_vertices box_vertex_colours box_uniform_colour
                   box_uniform_opacity box_wireframe].
  rewrite Hv. f_equal.
  destruct wireframe; [| reflexivity]. cbn [map]. unfold box_geometry.
  rewrite volume_wireframe_cube.
  cbn [identity_box box_vertices box_vertex_colours box_uniform_colour
       box_uniform_opacity box_wireframe].
  by rewrite Hv.
Qed.

Lemma triangle_geometry_run (s : store) (a : array) (uc : colour_arg)
    (uo width : float) (parent : option loc) :
  line_geometry (s ++ [Ndarray a; LineObj (triangle_line uc uo width parent (length s))])
    (S (length s))
  = Some (Some a, [np_hstack (triangle_colour uc) uo], width).
Proof.
  unfold line_geometry.
  rewrite (deref_line_at s _ _ 1) by lia. cbn [deref_line lookup list_lookup].
  cbn [triangle_line line_pos line_color line_width].
  by rewrite (deref_array_at s _ _ 0) by lia.
Qed.

(** ** The identity cube *)

(** C3: for every choice of segment counts and planes (and of the other
    arguments) [RGB_identity_cube] returns a box whose vertex positions
    are the positions tessellated by [create_box] with one half added to
    every coordinate; when the tessellation is that of the unit box
    centred at the origin, all coordinates between minus one half and one
    half, every coordinate of the box lies between zero and one. *)
Theorem identity_cube_unit_box (ws hs ds : Z) (planes : option (list string))
    (uc : colour_arg) (uo : float) (vc wf : bool) (parent : option loc)
    (s : store) :
  2 <= prec → prec <= emax →
  array_all (within (-1 # 2) (1 # 2)) (position (create_box ws hs ds planes).1.1) = true →
  ∃ s' box vertices,
    cube ws hs ds planes uc uo vc wf parent s = (s', inr box) ∧
    box_positions s' box = Some vertices ∧
    vertices = amap (fun x => SFadd prec emax x (half prec))
                 (position (create_box ws hs ds planes).1.1) ∧
    array_all (within 0 1) vertices = true.
Proof.
  intros Hprec Hemax Hunit.
  eexists _, _, _. split; [apply RGB_identity_cube_run |].
  split; [| split; [reflexivity |]].
  - rewrite (box_positions_at s _ _ 1 (cube_box ws hs ds planes uc uo vc wf parent (length s)))
      by (reflexivity || lia).
    cbn [identity_box box_vertices].
    by rewrite (deref_array_at s _ _ 0) by lia.
  - apply (array_all_amap (within (-1 # 2) (1 # 2))); [| exact Hunit].
    intros x Hx. by apply SFadd_half_unit.
Qed.

(** ** The volume visual *)

(** C2: the vertices of the displayed gamut volume are the vertices of
    the tessellated identity cube converted in two stages, RGB to XYZ with
    the whitepoint of the colourspace as both whitepoints and its
    RGB-to-XYZ matrix, then XYZ to the reference colourspace with that
    whitepoint and the given name; the result, with its NaN entries set to
    zero, is the vertex array of the filled cube. *)
Theorem volume_vertices_two_stage (cs ref : string) (segments : Z)
    (uc : colour_arg) (uo : float) (wireframe : bool) (wc : colour_arg)
    (wo : float) (parent : option loc) (s : store)
    (c : RGB_Colourspace) (value : array) :
  store_wf s → parent_in s parent →
  volume_raises cs ref segments uc wireframe wc = None →
  get_RGB_colourspace cs = inr c →
  XYZ_to_reference_colourspace
    (RGB_to_XYZ
       (amap (fun x => SFadd prec emax x (half prec))
          (position (create_box segments segments segments None).1.1))
       (whitepoint c) (whitepoint c) (RGB_to_XYZ_matrix c))
    (whitepoint c) ref = inr value →
  ∃ s' node cube_f,
    volume cs ref segments uc uo wireframe wc wo parent s = (s', inr node) ∧
    head (children s' node) = Some cube_f ∧
    box_wireframe <$> deref_box s' cube_f = Some false ∧
    box_positions s' cube_f = Some (amap nan_to_zero value).
Proof.
  intros Hwf Hpar Hret Hcs Hval.
  destruct (volume_returns_inv _ _ _ _ _ _ Hret) as (c' & vf & value' & vw & Hcs' & Hvf & Hval' & Hvw).
  assert (c' = c) as -> by congruence.
  assert (value' = value) as ->.
  { unfold reference_vertices, identity_vertices, np_add_scalar in Hval'. congruence. }
  eexists _, _, _. split; [by apply (volume_visual_run _ _ _ _ _ _ _ _ _ _ c vf vw value) |].
  rewrite volume_children by assumption.
  destruct (volume_filled_cube s parent segments uc uo vf wireframe wc wo vw value)
    as [Hf Hv]. cbn zeta in Hf, Hv.
  split; [reflexivity |]. unfold box_positions. rewrite Hf. cbn [fmap option_fmap option_map].
  split; [reflexivity |]. exact Hv.
Qed.

(** C1 (amended): the vertex arrays handed to the renderer have their NaN
    entries set to zero, and nothing else changed: the cubes of a volume
    visual have for vertices the converted array with zero for every NaN,
    the line of a triangle visual has for points the stacked chromaticity
    coordinates with zero for every NaN; no NaN is left, and every entry
    that is not NaN, the infinities among them, is kept as it is. *)
Theorem nan_entries_zeroed (cs ref : string) (segments : Z)
    (uc : colour_arg) (uo : float) (wireframe : bool) (wc : colour_arg)
    (wo : float) (parent : option loc) (s : store)
    (cs' diagram : string) (uc' : colour_arg) (uo' width : float)
    (parent' : option loc) (s2 : store) :
  store_wf s → parent_in s parent →
  volume_raises cs ref segments uc wireframe wc = None →
  triangle_raises cs' diagram = None →
  (∃ s' node c value,
     volume cs ref segments uc uo wireframe wc wo parent s = (s', inr node) ∧
     get_RGB_colourspace cs = inr c ∧
     converted c ref segments = inr value ∧
     children s' node ≠ [] ∧
     Forall (λ cube, box_positions s' cube = Some (amap nan_to_zero value))
       (children s' node)) ∧
  (∃ s' line ln c d f,
     triangle cs' diagram uc' uo' width parent' s2 = (s', inr line) ∧
     get_RGB_colourspace cs' = inr c ∧
     CHROMATICITY_DIAGRAM_TRANSFORMATIONS !! diagram = Some d ∧
     d !! "XYZ_to_ij" = Some f ∧
     deref_line s' line = Some ln ∧
     deref_array s' (line_pos ln)
     = Some (amap nan_to_zero (closed_path (coordinates f c)))) ∧
  (∀ a, array_all (λ x, negb (isnan x)) (amap nan_to_zero a) = true) ∧
  (∀ x, isnan x = true → nan_to_zero x = fzero) ∧
  (∀ x, isnan x = false → nan_to_zero x = x) ∧
  (∀ sign, nan_to_zero (S754_infinity sign) = S754_infinity sign).
Proof.
  intros Hwf Hpar Hret Hret'. split; [| split].
  - destruct (volume_returns_inv _ _ _ _ _ _ Hret)
      as (c & vf & value & vw & Hcs & Hvf & Hval & Hvw).
    exists (s ++ created (length s) parent segments uc uo vf wireframe wc wo vw value),
      (length s), c, value.
    split; [by apply (volume_visual_run _ _ _ _ _ _ _ _ _ _ c vf vw value) |].
    split; [exact Hcs |]. split; [exact Hval |].
    rewrite volume_children by assumption. split; [discriminate |].
    destruct (volume_filled_cube s parent segments uc uo vf wireframe wc wo vw value)
      as [Hf Hv]. cbn zeta in Hf, Hv.
    apply Forall_cons. split.
    + unfold box_positions. by rewrite Hf.
    + destruct wireframe; [| apply Forall_nil_2].
      apply Forall_cons. split; [| apply Forall_nil_2].
      unfold box_positions. by rewrite volume_wireframe_cube.
  - destruct (triangle_returns_inv _ _ Hret') as (c & d & f & Hcs & Hd & Hf & Hne).
    eexists _, _, (triangle_line uc' uo' width parent' (length s2)), c, d, f.
    split; [by apply (triangle_visual_run _ _ _ _ _ _ _ c d f) |].
    repeat (split; [assumption |]).
    split.
    + rewrite (deref_line_at s2 _ _ 1) by lia. reflexivity.
    + cbn [triangle_line line_pos]. by rewrite (deref_array_at s2 _ _ 0) by lia.
  - split; [apply amap_no_nan |]. split; [| split].
    + intros x Hx. unfold nan_to_zero. by rewrite Hx.
    + apply nan_to_zero_id.
    + reflexivity.
Qed.

(** C8: with [wireframe] the node has exactly two cubes for children,
    and the mesh of the wireframe cube points to the very array the mesh
    of the filled cube points to, the converted array with its NaN set to
    zero, so that the two have the same vertex positions; without
    [wireframe] the node has exactly one cube for child. *)
Theorem volume_cubes_share_vertices (cs ref : string) (segments : Z)
    (uc : colour_arg) (uo : float) (wireframe : bool) (wc : colour_arg)
    (wo : float) (parent : option loc) (s : store) :
  store_wf s → parent_in s parent →
  volume_raises cs ref segments uc wireframe wc = None →
  ∃ s' node cube_f bf c value,
    volume cs ref segments uc uo wireframe wc wo parent s = (s', inr node) ∧
    get_RGB_colourspace cs = inr c ∧
    converted c ref segments = inr value ∧
    deref_box s' cube_f = Some bf ∧ box_wireframe bf = false ∧
    deref_array s' (box_vertices bf) = Some (amap nan_to_zero value) ∧
    if wireframe
    then ∃ cube_w bw,
           children s' node = [cube_f; cube_w] ∧
           deref_box s' cube_w = Some bw ∧ box_wireframe bw = true ∧
           box_vertices bw = box_vertices bf ∧
           box_positions s' cube_w = box_positions s' cube_f
    else children s' node = [cube_f].
Proof.
  intros Hwf Hpar Hret.
  destruct (volume_returns_inv _ _ _ _ _ _ Hret)
    as (c & vf & value & vw & Hcs & Hvf & Hval & Hvw).
  destruct (volume_filled_cube s parent segments uc uo vf wireframe wc wo vw value)
    as [Hf Hv]. cbn zeta in Hf, Hv.
  eexists _, _, _, _, c, value.
  split; [by apply (volume_visual_run _ _ _ _ _ _ _ _ _ _ c vf vw value) |].
  split; [exact Hcs |]. split; [exact Hval |].
  split; [exact Hf |]. split; [reflexivity |]. split; [exact Hv |].
  rewrite volume_children by assumption.
  destruct wireframe; [| reflexivity].
  eexists _, _. split; [reflexivity |].
  split; [apply volume_wireframe_cube |].
  split; [reflexivity |]. split; [reflexivity |].
  unfold box_positions. by rewrite volume_wireframe_cube, Hf.
Qed.

(** C10: a cube gets the per-vertex colours of the tessellation exactly
    when its colour argument is false as a truth value, the flag being the
    negation of the argument: the filled cube, the one that is no
    wireframe, by [uniform_colour], the wireframe cube by
    [wireframe_colour]; [None] is false, a sequence with an element is
    true, so that a colour given turns the per-vertex colours off; an
    array of one number is false when the number is a zero and true
    otherwise, an array of several has no truth value. *)
Theorem vertex_colours_iff_colour_falsy (cs ref : string) (segments : Z)
    (uc : colour_arg) (uo : float) (wireframe : bool) (wc : colour_arg)
    (wo : float) (parent : option loc) (s : store) :
  store_wf s → parent_in s parent →
  volume_raises cs ref segments uc wireframe wc = None →
  let tessellation_colours := color (create_box segments segments segments None).1.1 in
  ∃ s' node cube_f bf,
    volume cs ref segments uc uo wireframe wc wo parent s = (s', inr node) ∧
    children s' node !! 0%nat = Some cube_f ∧
    deref_box s' cube_f = Some bf ∧
    box_wireframe bf = false ∧
    box_uniform_colour bf = uc ∧
    (py_bool uc = inr false ∧ box_vertex_colours bf = Some tessellation_colours ∨
     py_bool uc = inr true ∧ box_vertex_colours bf = None) ∧
    (wireframe = true →
     ∃ cube_w bw,
       children s' node = [cube_f; cube_w] ∧
       deref_box s' cube_w = Some bw ∧
       box_wireframe bw = true ∧
       box_uniform_colour bw = wc ∧
       (py_bool wc = inr false ∧ box_vertex_colours bw = Some tessellation_colours ∨
        py_bool wc = inr true ∧ box_vertex_colours bw = None)) ∧
    (wireframe = false → children s' node = [cube_f]) ∧
    py_bool PyNone = inr false ∧
    py_bool (PySeq []) = inr false ∧
    (∀ x xs, py_bool (PySeq (x :: xs)) = inr true) ∧
    py_bool (PyArray []) = inr false ∧
    (∀ sign, py_bool (PyArray [S754_zero sign]) = inr false) ∧
    (∀ x, (∀ sign, x ≠ S754_zero sign) → py_bool (PyArray [x]) = inr true) ∧
    (∀ x y xs, py_bool (PyArray (x :: y :: xs)) = inl ValueError).
Proof.
  intros Hwf Hpar Hret tc.
  destruct (volume_returns_inv _ _ _ _ _ _ Hret)
    as (c & vf & value & vw & Hcs & Hvf & Hval & Hvw).
  destruct (volume_filled_cube s parent segments uc uo vf wireframe wc wo vw value)
    as [Hf Hv]. cbn zeta in Hf, Hv.
  eexists _, _, _, _.
  split; [by apply (volume_visual_run _ _ _ _ _ _ _ _ _ _ c vf vw value) |].
  rewrite volume_children by assumption.
  split; [reflexivity |]. split; [exact Hf |].
  cbn [identity_box box_vertex_colours box_wireframe box_uniform_colour].
  split; [reflexivity |]. split; [reflexivity |].
  split; [| split; [| split]].
  - apply py_not_inv in Hvf. destruct vf; [left | right]; by split.
  - intros ->. specialize (Hvw eq_refl). apply py_not_inv in Hvw.
    eexists _, _. split; [reflexivity |].
    split; [apply volume_wireframe_cube |].
    cbn [identity_box box_vertex_colours box_wireframe box_uniform_colour].
    split; [reflexivity |]. split; [reflexivity |].
    destruct vw; [left | right]; by split.
  - intros ->. reflexivity.
  - repeat (split; [reflexivity |]). split; [| reflexivity].
    intros x Hx. destruct x as [sign | sign | | sign m e];
      [by destruct (Hx sign) | reflexivity | reflexivity | reflexivity].
Qed.

(** ** The triangle visual *)

(** C4: for a colourspace of [n] primaries, the chromaticity coordinates
    of the primaries are stacked into [n + 2] rows, the first the
    coordinates of the last primary, then those of every primary in
    order, the last those of the first primary; the line is given these
    rows, NaN set to zero, so that its polyline is closed: it starts where
    the last edge ends and ends where the first edge ends. *)
Theorem triangle_closed_polygon (cs diagram : string) (uc : colour_arg)
    (uo width : float) (parent : option loc) (s : store)
    (c : RGB_Colourspace) (d : gmap string ij_transformation)
    (XYZ_to_ij : ij_transformation) (n : nat) :
  get_RGB_colourspace cs = inr c →
  CHROMATICITY_DIAGRAM_TRANSFORMATIONS !! diagram = Some d →
  d !! "XYZ_to_ij" = Some XYZ_to_ij →
  length (XYZ_to_ij (xy_to_XYZ (primaries c)) DEFAULT_PLOTTING_ILLUMINANT) = n →
  (0 < n)%nat →
  let ij := XYZ_to_ij (xy_to_XYZ (primaries c)) DEFAULT_PLOTTING_ILLUMINANT in
  ∃ s' line ln stacked points,
    triangle cs diagram uc uo width parent s = (s', inr line) ∧
    deref_line s' line = Some ln ∧
    deref_array s' (line_pos ln) = Some points ∧
    points = amap nan_to_zero stacked ∧
    length stacked = (n + 2)%nat ∧
    stacked !! 0%nat = ij !! (n - 1)%nat ∧
    (∀ k, (k < n)%nat → stacked !! S k = ij !! k) ∧
    stacked !! (n + 1)%nat = ij !! 0%nat ∧
    length points = (n + 2)%nat ∧
    points !! 0%nat = points !! n ∧
    points !! (n + 1)%nat = points !! 1%nat.
Proof.
  intros Hcs Hd Hf Hlen Hn ij.
  destruct n as [| m]; [lia |].
  destruct (closed_path_rows ij m Hlen) as (Hrows & Hfirst & Hmid & Hlast).
  assert (Hne : coordinates XYZ_to_ij c ≠ []).
  { unfold primaries_ij. intros Hnil. rewrite Hnil in Hlen. discriminate. }
  exists (s ++ [Ndarray (amap nan_to_zero (closed_path ij));
                LineObj (triangle_line uc uo width parent (length s))]),
    (S (length s)), (triangle_line uc uo width parent (length s)),
    (closed_path ij), (amap nan_to_zero (closed_path ij)).
  split; [by apply (triangle_visual_run _ _ _ _ _ _ _ c d XYZ_to_ij) |].
  split; [by rewrite (deref_line_at s _ _ 1) by lia |].
  split; [cbn [triangle_line line_pos]; by rewrite (deref_array_at s _ _ 0) by lia |].
  split; [reflexivity |].
  replace (S m - 1)%nat with m by lia.
  replace (S m + 1)%nat with (S (S m)) in * by lia.
  replace (S m + 2)%nat with (S (S (S m))) in * by lia.
  split; [exact Hrows |]. split; [exact Hfirst |]. split; [exact Hmid |].
  split; [exact Hlast |]. split; [by rewrite amap_length |].
  rewrite !amap_lookup_row. split.
  - by rewrite Hfirst, (Hmid m) by lia.
  - by rewrite Hlast, (Hmid 0%nat) by lia.
Qed.

(** C9: when [uniform_colour] is [None] it is taken to be
    [(0.8, 0.8, 0.8)]; the colour given to the line is a tuple of one
    element, the colour followed by the opacity, of four components for a
    colour of three. *)
Theorem triangle_line_colour (cs diagram : string) (uc : colour_arg)
    (uo width : float) (parent : option loc) (s : store) :
  triangle_raises cs diagram = None →
  uc = PyNone ∨ length (colour_elements uc) = 3%nat →
  ∃ s' line ln rgba,
    triangle cs diagram uc uo width parent s = (s', inr line) ∧
    deref_line s' line = Some ln ∧
    line_color ln = [rgba] ∧
    length rgba = 4%nat ∧
    (uc = PyNone → rgba = [f0_8; f0_8; f0_8; uo]) ∧
    (uc ≠ PyNone → rgba = colour_elements uc ++ [uo]).
Proof.
  intros Hret Huc.
  destruct (triangle_returns_inv _ _ Hret) as (c & d & f & Hcs & Hd & Hf & Hne).
  eexists _, _, (triangle_line uc uo width parent (length s)), _.
  split; [by apply (triangle_visual_run _ _ _ _ _ _ _ c d f) |].
  split; [by rewrite (deref_line_at s _ _ 1) by lia |].
  split; [reflexivity |].
  unfold np_hstack. split; [| split].
  - rewrite length_app. cbn [length].
    destruct Huc as [-> | Hlen]; [reflexivity |].
    destruct uc; cbn [triangle_colour colour_elements length] in *; lia.
  - intros ->. reflexivity.
  - intros Hnone. by destruct uc.
Qed.

(** ** Exceptions *)

(** C5: a colourspace name that [get_RGB_colourspace] does not resolve
    makes both visuals raise the very exception of the library, and a
    diagram name that is no key of the transformations makes the triangle
    visual raise the key error of the lookup; there is then no visual
    returned, and the exception is neither caught nor changed. *)
Theorem lookup_failures_propagate (cs : string) (e : exn) (diagram cs' : string)
    (c' : RGB_Colourspace)
    (ref : string) (segments : Z) (uc : colour_arg) (uo : float)
    (wireframe : bool) (wc : colour_arg) (wo : float) (parent : option loc)
    (s : store) (uc' : colour_arg) (uo' width : float)
    (parent' : option loc) (s2 : store) :
  get_RGB_colourspace cs = inl e →
  CHROMATICITY_DIAGRAM_TRANSFORMATIONS !! diagram = None →
  get_RGB_colourspace cs' = inr c' →
  (volume cs ref segments uc uo wireframe wc wo parent s).2 = inl e ∧
  (∀ dg, (triangle cs dg uc' uo' width parent' s2).2 = inl e) ∧
  (triangle cs' diagram uc' uo' width parent' s2).2 = inl (KeyError diagram) ∧
  (∀ cs'', ∃ e', (triangle cs'' diagram uc' uo' width parent' s2).2 = inl e').
Proof.
  intros Hcs Hd Hcs'. split; [| split; [| split]].
  - destruct (volume_visual_outcome cs ref segments uc uo wireframe wc wo parent s)
      as [t ->].
    unfold volume_exception. by rewrite Hcs.
  - intros dg.
    destruct (triangle_visual_outcome cs dg uc' uo' width parent' s2) as [t ->].
    unfold triangle_exception. by rewrite Hcs.
  - destruct (triangle_visual_outcome cs' diagram uc' uo' width parent' s2) as [t ->].
    unfold triangle_exception. by rewrite Hcs', Hd.
  - intros cs''.
    destruct (triangle_visual_outcome cs'' diagram uc' uo' width parent' s2) as [t ->].
    unfold triangle_exception. cbn [snd].
    destruct (get_RGB_colourspace cs'') as [e' | c'']; [by exists e' |].
    rewrite Hd. by eexists.
Qed.

(** ** What the constructors return *)

(** C6: on arguments that raise nothing, the volume visual returns a
    node whose parent is the given one and whose children are cubes
    attached to it, and the triangle visual returns a line whose parent
    is the given one. *)
Theorem constructors_return_scene_nodes (cs ref : string) (segments : Z)
    (uc : colour_arg) (uo : float) (wireframe : bool) (wc : colour_arg)
    (wo : float) (parent : option loc) (s : store)
    (cs' diagram : string) (uc' : colour_arg) (uo' width : float)
    (parent' : option loc) (s2 : store) :
  store_wf s → parent_in s parent →
  volume_raises cs ref segments uc wireframe wc = None →
  triangle_raises cs' diagram = None →
  (∃ s' node,
     volume cs ref segments uc uo wireframe wc wo parent s = (s', inr node) ∧
     s' !! node = Some (NodeObj parent) ∧
     children s' node ≠ [] ∧
     Forall (λ child, ∃ b, s' !! child = Some (BoxObj b) ∧ box_parent b = Some node)
       (children s' node)) ∧
  (∃ s' line ln,
     triangle cs' diagram uc' uo' width parent' s2 = (s', inr line) ∧
     s' !! line = Some (LineObj ln) ∧
     line_parent ln = parent').
Proof.
  intros Hwf Hpar Hret Hret'. split.
  - destruct (volume_returns_inv _ _ _ _ _ _ Hret)
      as (c & vf & value & vw & Hcs & Hvf & Hval & Hvw).
    eexists _, _.
    split; [by apply (volume_visual_run _ _ _ _ _ _ _ _ _ _ c vf vw value) |].
    split; [by rewrite (lookup_app_at s _ _ 0) by lia |].
    rewrite volume_children by assumption. split; [discriminate |].
    apply Forall_cons. split.
    + eexists. rewrite (lookup_app_at s _ _ 2) by lia. split; reflexivity.
    + destruct wireframe; [| apply Forall_nil_2].
      apply Forall_cons. split; [| apply Forall_nil_2].
      eexists. rewrite (lookup_app_at s _ _ 5) by lia. split; reflexivity.
  - destruct (triangle_returns_inv _ _ Hret') as (c & d & f & Hcs & Hd & Hf & Hne).
    eexists _, _, _.
    split; [by apply (triangle_visual_run _ _ _ _ _ _ _ c d f) |].
    split; [by rewrite (lookup_app_at s2 _ _ 1) by lia | reflexivity].
Qed.

(** * Further properties of the constructors *)

Ltac run_filled_cube s Hcs Hvf :=
  unfold RGB_colourspace_volume_visual, Node, bind, alloc, lift;
  rewrite Hcs, Hvf, RGB_identity_cube_run;
  rewrite <- app_assoc, length_app; cbn [app length];
  rewrite (mesh_get_vertices_at s _ _ 2) by lia;
  cbn [lookup list_lookup identity_box box_vertices];
  rewrite (read_array_at s _ _ 1) by lia; cbn [lookup list_lookup].

Ltac run_conversion s Hval :=
  unfold reference_vertices in Hval; rewrite Hval;
  unfold ndarray_setitem_isnan, bind;
  rewrite <- app_assoc, length_app; cbn [app length];
  rewrite (read_array_at s _ _ 3) by lia; cbn [lookup list_lookup];
  rewrite (write_array_at s _ _ 3) by lia;
  cbn [lookup list_lookup insert list_insert];
  rewrite setitem_isnan_zero;
  rewrite (mesh_set_vertices_at s _ _ 2) by lia;
  cbn [lookup list_lookup insert list_insert].

(** ** What a volume visual that raises leaves behind *)

(** X1: the node is created, with its parent, before the colourspace is
    looked up: when the lookup raises, the store has gained the node, and a
    parent that was given has gained a child, though no visual is returned. *)
Theorem volume_failed_lookup_leaves_node (cs ref : string) (segments : Z)
    (uc : colour_arg) (uo : float) (wireframe : bool) (wc : colour_arg)
    (wo : float) (parent : option loc) (s : store) (e : exn) :
  get_RGB_colourspace cs = inl e →
  volume cs ref segments uc uo wireframe wc wo parent s
  = (s ++ [NodeObj parent], inl e) ∧
  (∀ p, parent = Some p → (p < length s)%nat →
        children (s ++ [NodeObj parent]) p = children s p ++ [length s]).
Proof.
  intros Hcs. split.
  - unfold RGB_colourspace_volume_visual, Node, bind, alloc, lift. by rewrite Hcs.
  - intros p -> Hp. rewrite children_old by exact Hp. f_equal.
    cbn [length seq List.filter lookup list_lookup has_parent parent_of].
    rewrite Nat.eqb_refl. cbn [map]. f_equal. lia.
Qed.

(** X2: when the conversion to the reference colourspace raises, the
    filled cube is already built and attached: the store keeps a node whose
    only child is a cube with the vertices of the identity cube, not
    converted. *)
Theorem volume_failed_conversion_leaves_cube (cs ref : string) (segments : Z)
    (uc : colour_arg) (uo : float) (wireframe : bool) (wc : colour_arg)
    (wo : float) (parent : option loc) (s : store)
    (c : RGB_Colourspace) (vf : bool) (e : exn) :
  store_wf s → parent_in s parent →
  get_RGB_colourspace cs = inr c →
  py_not uc = inr vf →
  converted c ref segments = inl e →
  ∃ s' cube,
    volume cs ref segments uc uo wireframe wc wo parent s = (s', inl e) ∧
    length s' = (length s + 3)%nat ∧
    s' !! length s = Some (NodeObj parent) ∧
    children s' (length s) = [cube] ∧
    box_positions s' cube = Some (cube_vertices segments segments segments None).
Proof.
  intros Hwf Hpar Hcs Hvf Hval.
  exists (s ++ [NodeObj parent;
                Ndarray (cube_vertices segments segments segments None);
                BoxObj (cube_box segments segments segments None uc uo vf false
                          (Some (length s)) (length s + 1))]),
    (length s + 2)%nat.
  split.
  { run_filled_cube s Hcs Hvf. unfold reference_vertices in Hval. by rewrite Hval. }
  split; [rewrite length_app; reflexivity |].
  split; [by rewrite (lookup_app_at s _ _ 0) by lia |].
  split.
  - rewrite children_app by (auto; lia).
    assert (Hnode : has_parent (length s) (NodeObj parent) = false).
    { apply (has_parent_old s); [exact Hpar | lia]. }
    cbn [length seq List.filter lookup list_lookup]. rewrite Hnode.
    cbn [has_parent parent_of identity_box box_parent].
    rewrite Nat.eqb_refl. cbn [map]. repeat f_equal; lia.
  - rewrite (box_positions_at s _ _ 2
               (cube_box segments segments segments None uc uo vf false
                  (Some (length s)) (length s + 1))) by (reflexivity || lia).
    cbn [identity_box box_vertices]. by rewrite (deref_array_at s _ _ 1) by lia.
Qed.

(** X3: a numpy array of several elements has no truth value: given as
    [uniform_colour] it makes the volume visual raise [ValueError] once the
    colourspace is found, before any cube is built, whatever the other
    arguments. *)
Theorem volume_array_colour_raises (cs ref : string) (segments : Z)
    (x y : float) (xs : list float) (uo : float) (wireframe : bool)
    (wc : colour_arg) (wo : float) (parent : option loc) (s : store)
    (c : RGB_Colourspace) :
  get_RGB_colourspace cs = inr c →
  volume cs ref segments (PyArray (x :: y :: xs)) uo wireframe wc wo parent s
  = (s ++ [NodeObj parent], inl ValueError).
Proof.
  intros Hcs.
  unfold RGB_colourspace_volume_visual, Node, bind, alloc, lift. by rewrite Hcs.
Qed.

(** X4: given as [wireframe_colour] with [wireframe], such an array makes
    the volume visual raise [ValueError] only after the filled cube is
    complete: the store keeps the node with the filled cube for only child,
    its vertices converted and free of NaN. *)
Theorem volume_array_wireframe_colour_raises (cs ref : string) (segments : Z)
    (uc : colour_arg) (uo : float) (x y : float) (xs : list float)
    (wo : float) (parent : option loc) (s : store)
    (c : RGB_Colourspace) (vf : bool) (value : array) :
  store_wf s → parent_in s parent →
  get_RGB_colourspace cs = inr c →
  py_not uc = inr vf →
  converted c ref segments = inr value →
  ∃ s' cube,
    volume cs ref segments uc uo true (PyArray (x :: y :: xs)) wo parent s
    = (s', inl ValueError) ∧
    children s' (length s) = [cube] ∧
    box_positions s' cube = Some (amap nan_to_zero value).
Proof.
  intros Hwf Hpar Hcs Hvf Hval.
  exists (s ++ created (length s) parent segments uc uo vf false PyNone wo false value),
    (length s + 2)%nat.
  split.
  { run_filled_cube s Hcs Hvf. run_conversion s Hval. reflexivity. }
  split; [by rewrite volume_children by assumption |].
  destruct (volume_filled_cube s parent segments uc uo vf false PyNone wo false value)
    as [Hf Hv]. cbn zeta in Hf, Hv.
  unfold box_positions. by rewrite Hf.
Qed.

(** X5: without [wireframe] the wireframe colour is never looked at: the
    volume visual returns a node with one cube for any [wireframe_colour],
    an array without truth value too, and any [wireframe_opacity], and what
    it builds is the same for all of them. *)
Theorem volume_ignores_wireframe_arguments (cs ref : string) (segments : Z)
    (uc : colour_arg) (uo : float) (parent : option loc) (s : store) :
  store_wf s → parent_in s parent →
  volume_raises cs ref segments uc false PyNone = None →
  ∃ s' node cube,
    children s' node = [cube] ∧
    ∀ wc wo,
      volume cs ref segments uc uo false wc wo parent s = (s', inr node).
Proof.
  intros Hwf Hpar Hret.
  destruct (volume_returns_inv _ _ _ _ _ _ Hret)
    as (c & vf & value & vw & Hcs & Hvf & Hval & _).
  exists (s ++ created (length s) parent segments uc uo vf false PyNone uo false value),
    (length s), (length s + 2)%nat.
  split; [by rewrite volume_children by assumption |].
  intros wc wo.
  by rewrite (volume_visual_run _ _ _ _ _ _ wc wo _ _ c vf false value).
Qed.

(** ** What a triangle visual that raises leaves behind *)

(** X6: a triangle visual creates nothing before its last lookup has
    succeeded: whenever it raises, the store is as it was. *)
Theorem triangle_failure_leaves_store (cs diagram : string) (uc : colour_arg)
    (uo width : float) (parent : option loc) (s s' : store) (e : exn) :
  triangle cs diagram uc uo width parent s = (s', inl e) → s' = s.
Proof.
  destruct (get_RGB_colourspace cs) as [e0 | c] eqn:Hcs.
  { unfold RGB_colourspace_triangle_visual, bind, lift. rewrite Hcs. congruence. }
  destruct (CHROMATICITY_DIAGRAM_TRANSFORMATIONS !! diagram) as [d |] eqn:Hd.
  2: { unfold RGB_colourspace_triangle_visual, bind, lift, dict_getitem.
       rewrite Hcs, Hd. congruence. }
  destruct (d !! "XYZ_to_ij") as [f |] eqn:Hf.
  2: { unfold RGB_colourspace_triangle_visual, bind, lift, dict_getitem.
       rewrite Hcs, Hd, Hf. congruence. }
  destruct (coordinates f c) as [| r0 ij'] eqn:Hij.
  - unfold RGB_colourspace_triangle_visual, bind, lift, dict_getitem.
    unfold primaries_ij in Hij. rewrite Hcs, Hd, Hf, Hij, np_row_last.
    cbn [last]. congruence.
  - rewrite (triangle_visual_run _ _ _ _ _ _ _ c d f) by (auto; by rewrite Hij).
    discriminate.
Qed.

(** X7: the dictionary of a diagram is indexed by ['XYZ_to_ij']: for a
    diagram that is a key but whose dictionary has no such entry, the
    triangle visual raises [KeyError('XYZ_to_ij')]. *)
Theorem triangle_missing_transformation (cs diagram : string) (uc : colour_arg)
    (uo width : float) (parent : option loc) (s : store)
    (c : RGB_Colourspace) (d : gmap string ij_transformation) :
  get_RGB_colourspace cs = inr c →
  CHROMATICITY_DIAGRAM_TRANSFORMATIONS !! diagram = Some d →
  d !! "XYZ_to_ij" = None →
  triangle cs diagram uc uo width parent s = (s, inl (KeyError "XYZ_to_ij")).
Proof.
  intros Hcs Hd Hf.
  unfold RGB_colourspace_triangle_visual, bind, lift, dict_getitem.
  by rewrite Hcs, Hd, Hf.
Qed.

(** X8: the rows put in front and behind are read with [ij[-1]] and
    [ij[0]]: for a colourspace whose chromaticity coordinates have no row,
    the triangle visual raises [IndexError] and builds no line. *)
Theorem triangle_no_primaries (cs diagram : string) (uc : colour_arg)
    (uo width : float) (parent : option loc) (s : store)
    (c : RGB_Colourspace) (d : gmap string ij_transformation)
    (XYZ_to_ij : ij_transformation) :
  get_RGB_colourspace cs = inr c →
  CHROMATICITY_DIAGRAM_TRANSFORMATIONS !! diagram = Some d →
  d !! "XYZ_to_ij" = Some XYZ_to_ij →
  XYZ_to_ij (xy_to_XYZ (primaries c)) DEFAULT_PLOTTING_ILLUMINANT = [] →
  triangle cs diagram uc uo width parent s = (s, inl IndexError).
Proof.
  intros Hcs Hd Hf Hij.
  unfold RGB_colourspace_triangle_visual, bind, lift, dict_getitem.
  by rewrite Hcs, Hd, Hf, Hij.
Qed.

(** ** Shared and separate vertex arrays *)

(** X9: the two cubes of a volume visual share one vertex array: the
    in-place update of [RGB_identity_cube] ([get_vertices], [+=],
    [set_vertices]) applied to the filled cube moves the wireframe cube by
    as much. *)
Theorem volume_cubes_move_together (cs ref : string) (segments : Z)
    (uc : colour_arg) (uo : float) (wc : colour_arg) (wo : float)
    (parent : option loc) (s : store) (shift : float) :
  store_wf s → parent_in s parent →
  volume_raises cs ref segments uc true wc = None →
  ∃ s' node cube_f cube_w vertices s'',
    volume cs ref segments uc uo true wc wo parent s = (s', inr node) ∧
    children s' node = [cube_f; cube_w] ∧
    box_positions s' cube_f = Some vertices ∧
    box_positions s' cube_w = Some vertices ∧
    shift_vertices prec emax cube_f shift s' = (s'', inr tt) ∧
    box_positions s'' cube_f = Some (np_add_scalar prec emax shift vertices) ∧
    box_positions s'' cube_w = Some (np_add_scalar prec emax shift vertices).
Proof.
  intros Hwf Hpar Hret.
  destruct (volume_returns_inv _ _ _ _ _ _ Hret)
    as (c & vf & value & vw & Hcs & Hvf & Hval & Hvw).
  destruct (volume_filled_cube s parent segments uc uo vf true wc wo vw value)
    as [Hf Hv]. cbn zeta in Hf, Hv.
  pose proof (volume_wireframe_cube s parent segments uc uo vf wc wo vw value) as Hw.
  eexists _, _, (length s + 2)%nat, (length s + 5)%nat, _, _.
  split; [by apply (volume_visual_run _ _ _ _ _ _ _ _ _ _ c vf vw value) |].
  split; [by rewrite volume_children by assumption |].
  split; [unfold box_positions; rewrite Hf; exact Hv |].
  split; [unfold box_positions; rewrite Hw; exact Hv |].
  unfold volume_objects. cbn [app].
  split.
  { unfold shift_vertices, ndarray_iadd, bind.
    rewrite (mesh_get_vertices_at s _ _ 2) by lia.
    cbn [lookup list_lookup identity_box box_vertices].
    rewrite (read_array_at s _ _ 3) by lia. cbn [lookup list_lookup].
    rewrite (write_array_at s _ _ 3) by lia.
    cbn [lookup list_lookup insert list_insert].
    rewrite (mesh_set_vertices_at s _ _ 2) by lia.
    cbn [lookup list_lookup insert list_insert]. reflexivity. }
  split.
  - rewrite (box_positions_at s _ _ 2
               (with_vertices (cube_box segments segments segments None uc uo vf false
                                 (Some (length s)) (length s + 3)) (length s + 3)))
      by (reflexivity || lia).
    cbn [with_vertices box_vertices]. by rewrite (deref_array_at s _ _ 3) by lia.
  - rewrite (box_positions_at s _ _ 5
               (cube_box segments segments segments None wc wo vw true
                  (Some (length s)) (length s + 3)))
      by (reflexivity || lia).
    cbn [identity_box box_vertices]. by rewrite (deref_array_at s _ _ 3) by lia.
Qed.

(** X10: two identity cubes never share a vertex array: each call makes
    its own, and the in-place update applied to the second cube leaves
    the vertices of the first as they were. *)
Theorem identity_cubes_do_not_alias (ws hs ds : Z) (planes : option (list string))
    (uc : colour_arg) (uo : float) (vc wf : bool) (parent : option loc)
    (ws' hs' ds' : Z) (planes' : option (list string))
    (uc' : colour_arg) (uo' : float) (vc' wf' : bool) (parent' : option loc)
    (s : store) (shift : float) :
  ∃ s1 box1 s2 box2 b1 b2 s3,
    cube ws hs ds planes uc uo vc wf parent s = (s1, inr box1) ∧
    cube ws' hs' ds' planes' uc' uo' vc' wf' parent' s1 = (s2, inr box2) ∧
    box1 ≠ box2 ∧
    deref_box s2 box1 = Some b1 ∧ deref_box s2 box2 = Some b2 ∧
    box_vertices b1 ≠ box_vertices b2 ∧
    shift_vertices prec emax box2 shift s2 = (s3, inr tt) ∧
    box_positions s3 box1 = Some (cube_vertices ws hs ds planes) ∧
    box_positions s3 box2
    = Some (np_add_scalar prec emax shift (cube_vertices ws' hs' ds' planes')).
Proof.
  eexists _, _, _, _, _, _, _.
  split; [apply RGB_identity_cube_run |].
  split; [apply RGB_identity_cube_run |].
  rewrite <- app_assoc, length_app. cbn [app length].
  split; [lia |].
  split; [by rewrite (deref_box_at s _ _ 1) by lia |].
  split; [by rewrite (deref_box_at s _ _ 3) by lia |].
  cbn [identity_box box_vertices]. split; [lia |].
  split.
  { unfold shift_vertices, ndarray_iadd, bind.
    rewrite (mesh_get_vertices_at s _ _ 3) by lia.
    cbn [lookup list_lookup identity_box box_vertices].
    rewrite (read_array_at s _ _ 2) by lia. cbn [lookup list_lookup].
    rewrite (write_array_at s _ _ 2) by lia.
    cbn [lookup list_lookup insert list_insert].
    rewrite (mesh_set_vertices_at s _ _ 3) by lia.
    cbn [lookup list_lookup insert list_insert]. reflexivity. }
  split.
  - rewrite (box_positions_at s _ _ 1
               (cube_box ws hs ds planes uc uo vc wf parent (length s)))
      by (reflexivity || lia).
    cbn [identity_box box_vertices]. by rewrite (deref_array_at s _ _ 0) by lia.
  - rewrite (box_positions_at s _ _ 3
               (with_vertices (cube_box ws' hs' ds' planes' uc' uo' vc' wf' parent'
                                 (length s + 2)) (length s + 2)))
      by (reflexivity || lia).
    cbn [with_vertices box_vertices]. by rewrite (deref_array_at s _ _ 2) by lia.
Qed.

(** ** Numbers and shapes *)

(** X11: [RGB_identity_cube] does not clean its vertices: a coordinate of
    the tessellation that is NaN or infinite is the same NaN or infinity,
    at the same place, in the vertices of the box. *)
Theorem identity_cube_keeps_non_finite (ws hs ds : Z) (planes : option (list string))
    (uc : colour_arg) (uo : float) (vc wf : bool) (parent : option loc)
    (s : store) (i j : nat) (r : list float) (x : float) :
  position (create_box ws hs ds planes).1.1 !! i = Some r →
  r !! j = Some x →
  isfinite x = false →
  ∃ s' box vertices r',
    cube ws hs ds planes uc uo vc wf parent s = (s', inr box) ∧
    box_positions s' box = Some vertices ∧
    vertices !! i = Some r' ∧ r' !! j = Some x.
Proof.
  intros Hr Hx Hnf.
  exists (s ++ [Ndarray (cube_vertices ws hs ds planes);
                BoxObj (cube_box ws hs ds planes uc uo vc wf parent (length s))]),
    (S (length s)), (cube_vertices ws hs ds planes),
    (map (fun x => SFadd prec emax x (half prec)) r).
  split; [apply RGB_identity_cube_run |].
  split.
  { rewrite (box_positions_at s _ _ 1 (cube_box ws hs ds planes uc uo vc wf parent (length s)))
      by (reflexivity || lia).
    cbn [identity_box box_vertices]. by rewrite (deref_array_at s _ _ 0) by lia. }
  split.
  - unfold identity_vertices, np_add_scalar. by rewrite amap_lookup_row, Hr.
  - assert (Hmap : map (fun x => SFadd prec emax x (half prec)) r !! j
                   = (fun x => SFadd prec emax x (half prec)) <$> r !! j)
      by apply list_lookup_fmap.
    rewrite Hmap, Hx. cbn [fmap option_fmap option_map].
    by rewrite SFadd_half_non_finite.
Qed.

(** X12: the translation keeps the shape of the tessellation: the box has
    as many vertices as [create_box] gave, each of as many coordinates, so
    that the faces and the per-vertex colours of the tessellation still
    fit. *)
Theorem identity_cube_keeps_shape (ws hs ds : Z) (planes : option (list string))
    (uc : colour_arg) (uo : float) (vc wf : bool) (parent : option loc)
    (s : store) :
  ∃ s' box vertices,
    cube ws hs ds planes uc uo vc wf parent s = (s', inr box) ∧
    box_positions s' box = Some vertices ∧
    shape vertices = shape (position (create_box ws hs ds planes).1.1).
Proof.
  eexists _, _, _. split; [apply RGB_identity_cube_run |]. split.
  - rewrite (box_positions_at s _ _ 1 (cube_box ws hs ds planes uc uo vc wf parent (length s)))
      by (reflexivity || lia).
    cbn [identity_box box_vertices]. by rewrite (deref_array_at s _ _ 0) by lia.
  - unfold identity_vertices, np_add_scalar. apply shape_amap.
Qed.

(** X13: when the conversion gives no NaN, setting the NaN to zero
    changes nothing: the cubes of the volume visual have exactly the
    converted array for vertices. *)
Theorem volume_vertices_exact_without_nan (cs ref : string) (segments : Z)
    (uc : colour_arg) (uo : float) (wireframe : bool) (wc : colour_arg)
    (wo : float) (parent : option loc) (s : store)
    (c : RGB_Colourspace) (value : array) :
  store_wf s → parent_in s parent →
  volume_raises cs ref segments uc wireframe wc = None →
  get_RGB_colourspace cs = inr c →
  converted c ref segments = inr value →
  array_all (λ x, negb (isnan x)) value = true →
  ∃ s' node,
    volume cs ref segments uc uo wireframe wc wo parent s = (s', inr node) ∧
    children s' node ≠ [] ∧
    Forall (λ cube, box_positions s' cube = Some value) (children s' node).
Proof.
  intros Hwf Hpar Hret Hcs Hval Hnan.
  destruct (volume_returns_inv _ _ _ _ _ _ Hret)
    as (c' & vf & value' & vw & Hcs' & Hvf & Hval' & Hvw).
  assert (c' = c) as -> by congruence.
  assert (value' = value) as -> by congruence.
  eexists _, _.
  split; [by apply (volume_visual_run _ _ _ _ _ _ _ _ _ _ c vf vw value) |].
  rewrite volume_children by assumption. split; [discriminate |].
  destruct (volume_filled_cube s parent segments uc uo vf wireframe wc wo vw value)
    as [Hf Hv]. cbn zeta in Hf, Hv.
  rewrite (amap_nan_free value Hnan) in Hv.
  apply Forall_cons. split.
  - unfold box_positions. by rewrite Hf.
  - destruct wireframe; [| apply Forall_nil_2].
    apply Forall_cons. split; [| apply Forall_nil_2].
    unfold box_positions. by rewrite volume_wireframe_cube.
Qed.

(** X14: the opacity is appended to whatever colour is given: the colour of
    the line has one component more than [uniform_colour], the opacity
    last, so that a colour that comes with an alpha gets a fifth
    component. *)
Theorem triangle_colour_appends_opacity (cs diagram : string) (uc : colour_arg)
    (uo width : float) (parent : option loc) (s : store) :
  triangle_raises cs diagram = None →
  uc ≠ PyNone →
  ∃ s' line ln rgba,
    triangle cs diagram uc uo width parent s = (s', inr line) ∧
    deref_line s' line = Some ln ∧
    line_color ln = [rgba] ∧
    rgba = colour_elements uc ++ [uo] ∧
    length rgba = S (length (colour_elements uc)) ∧
    last rgba = Some uo.
Proof.
  intros Hret Huc.
  destruct (triangle_returns_inv _ _ Hret) as (c & d & f & Hcs & Hd & Hf & Hne).
  eexists _, _, (triangle_line uc uo width parent (length s)), _.
  split; [by apply (triangle_visual_run _ _ _ _ _ _ _ c d f) |].
  split; [by rewrite (deref_line_at s _ _ 1) by lia |].
  split; [reflexivity |].
  unfold np_hstack.
  assert (Hcol : colour_elements (triangle_colour uc) = colour_elements uc)
    by (by destruct uc).
  rewrite Hcol. split; [reflexivity |]. split.
  - rewrite length_app. cbn [length]. lia.
  - apply last_snoc.
Qed.

(** X15: the points of the line have the dimension of the chromaticity
    coordinates: when every row of the coordinates of the primaries has
    [k] entries, so has every point given to the line. *)
Theorem triangle_points_dimension (cs diagram : string) (uc : colour_arg)
    (uo width : float) (parent : option loc) (s : store)
    (c : RGB_Colourspace) (d : gmap string ij_transformation)
    (XYZ_to_ij : ij_transformation) (k : nat) :
  get_RGB_colourspace cs = inr c →
  CHROMATICITY_DIAGRAM_TRANSFORMATIONS !! diagram = Some d →
  d !! "XYZ_to_ij" = Some XYZ_to_ij →
  XYZ_to_ij (xy_to_XYZ (primaries c)) DEFAULT_PLOTTING_ILLUMINANT ≠ [] →
  Forall (λ r, length r = k)
    (XYZ_to_ij (xy_to_XYZ (primaries c)) DEFAULT_PLOTTING_ILLUMINANT) →
  ∃ s' line ln points,
    triangle cs diagram uc uo width parent s = (s', inr line) ∧
    deref_line s' line = Some ln ∧
    deref_array s' (line_pos ln) = Some points ∧
    Forall (λ r, length r = k) points.
Proof.
  intros Hcs Hd Hf Hne Hk.
  eexists _, _, (triangle_line uc uo width parent (length s)), _.
  split; [by apply (triangle_visual_run _ _ _ _ _ _ _ c d XYZ_to_ij) |].
  split; [by rewrite (deref_line_at s _ _ 1) by lia |].
  split; [cbn [triangle_line line_pos]; by rewrite (deref_array_at s _ _ 0) by lia |].
  unfold primaries_ij. set (ij := XYZ_to_ij _ _) in *.
  assert (Hpath : Forall (λ r, length r = k) (closed_path ij)).
  { unfold closed_path. rewrite !Forall_app. split; [| split; [exact Hk |]].
    - destruct (last ij) as [rl |] eqn:Hl; [| apply Forall_nil_2].
      apply Forall_singleton. apply last_Some_elem_of in Hl.
      by apply (proj1 (Forall_forall _ _) Hk).
    - destruct ij as [| r0 ij']; [apply Forall_nil_2 |].
      apply Forall_singleton. by apply Forall_inv in Hk. }
  unfold amap. apply Forall_forall. intros r Hr.
  apply list_elem_of_In, in_map_iff in Hr. destruct Hr as (r' & <- & Hr').
  rewrite length_map. apply list_elem_of_In in Hr'.
  by apply (proj1 (Forall_forall _ _) Hpath).
Qed.

(** ** Determinism, and what a call changes *)

Ltac attached_objects :=
  repeat first
    [ apply Forall_nil_2
    | apply Forall_cons; split; [first [by left | by right] |] ].

(** Whatever happens, the objects a volume visual adds are the node, with
    the given parent, and then arrays and cubes attached to the node. *)
Lemma volume_visual_store (cs ref : string) (segments : Z) (uc : colour_arg)
    (uo : float) (wireframe : bool) (wc : colour_arg) (wo : float)
    (parent : option loc) (s : store) :
  ∃ t, (volume cs ref segments uc uo wireframe wc wo parent s).1
       = s ++ NodeObj parent :: t ∧
       Forall (λ o, parent_of o = None ∨ parent_of o = Some (length s)) t.
Proof.
  destruct (get_RGB_colourspace cs) as [e | c] eqn:Hcs.
  { exists []. split; [| apply Forall_nil_2].
    unfold RGB_colourspace_volume_visual, Node, bind, alloc, lift. by rewrite Hcs. }
  destruct (py_not uc) as [e | vf] eqn:Hvf.
  { exists []. split; [| apply Forall_nil_2].
    unfold RGB_colourspace_volume_visual, Node, bind, alloc, lift.
    by rewrite Hcs, Hvf. }
  destruct (converted c ref segments) as [e | value] eqn:Hval.
  { eexists. split.
    - run_filled_cube s Hcs Hvf. unfold reference_vertices in Hval. rewrite Hval.
      cbn [fst]. reflexivity.
    - attached_objects. }
  assert (Hrun : ∀ vw, (wireframe = true → py_not wc = inr vw) →
            ∃ t, (volume cs ref segments uc uo wireframe wc wo parent s).1
                 = s ++ NodeObj parent :: t ∧
                 Forall (λ o, parent_of o = None ∨ parent_of o = Some (length s)) t).
  { intros vw Hvw. eexists. split.
    - rewrite (volume_visual_run _ _ _ _ _ _ _ _ _ _ c vf vw value) by assumption.
      cbn [fst]. unfold volume_objects. cbn [app]. reflexivity.
    - destruct wireframe; attached_objects. }
  destruct wireframe eqn:Hw.
  - destruct (py_not wc) as [e | vw] eqn:Hvw; [| by apply (Hrun vw)].
    eexists. split.
    + run_filled_cube s Hcs Hvf. run_conversion s Hval. rewrite Hvw.
      cbn [fst]. reflexivity.
    + attached_objects.
  - apply (Hrun false). discriminate.
Qed.

(** A triangle visual that raises adds nothing; one that returns adds the
    array of the points and the line. *)
Lemma triangle_visual_store (cs diagram : string) (uc : colour_arg)
    (uo width : float) (parent : option loc) (s : store) :
  ∃ points, (triangle cs diagram uc uo width parent s).1
            = s ++ match triangle_raises cs diagram with
                   | Some _ => []
                   | None => [Ndarray points;
                              LineObj (triangle_line uc uo width parent (length s))]
                   end.
Proof.
  unfold triangle_exception.
  destruct (get_RGB_colourspace cs) as [e | c] eqn:Hcs.
  { exists []. rewrite app_nil_r.
    unfold RGB_colourspace_triangle_visual, bind, lift. by rewrite Hcs. }
  destruct (CHROMATICITY_DIAGRAM_TRANSFORMATIONS !! diagram) as [d |] eqn:Hd.
  2: { exists []. rewrite app_nil_r.
       unfold RGB_colourspace_triangle_visual, bind, lift, dict_getitem.
       by rewrite Hcs, Hd. }
  destruct (d !! "XYZ_to_ij") as [f |] eqn:Hf.
  2: { exists []. rewrite app_nil_r.
       unfold RGB_colourspace_triangle_visual, bind, lift, dict_getitem.
       by rewrite Hcs, Hd, Hf. }
  destruct (coordinates f c) as [| r0 ij'] eqn:Hij.
  - exists []. rewrite app_nil_r.
    unfold RGB_colourspace_triangle_visual, bind, lift, dict_getitem.
    unfold primaries_ij in Hij. by rewrite Hcs, Hd, Hf, Hij.
  - eexists. rewrite (triangle_visual_run _ _ _ _ _ _ _ c d f) by (auto; by rewrite Hij).
    reflexivity.
Qed.

(** C7 (amended): the three constructors are deterministic: called with
    the same arguments in any two stores, each raises the same exception or
    builds the same geometry (vertex positions and colours of the cubes,
    points, colour and width of the line), and a call leaves the record of
    every object that was in the store as it was.  They do change the scene
    graph they are given: the object named as parent gains the new box,
    node or line for child (the node of a volume visual even when the call
    raises, the line only when the call returns), and the children of
    every other object stay as they were. *)
Theorem visuals_deterministic (ws hs ds : Z) (planes : option (list string))
    (uc0 : colour_arg) (uo0 : float) (vc wf : bool) (parent0 : option loc)
    (cs ref : string) (segments : Z) (uc : colour_arg) (uo : float)
    (wireframe : bool) (wc : colour_arg) (wo : float) (parent : option loc)
    (cs' diagram : string) (uc' : colour_arg) (uo' width : float)
    (parent' : option loc) (s1 s2 : store) :
  store_wf s1 → store_wf s2 → parent_in s1 parent → parent_in s2 parent →
  outcome box_geometry (cube ws hs ds planes uc0 uo0 vc wf parent0 s1)
  = outcome box_geometry (cube ws hs ds planes uc0 uo0 vc wf parent0 s2) ∧
  outcome volume_geometry (volume cs ref segments uc uo wireframe wc wo parent s1)
  = outcome volume_geometry (volume cs ref segments uc uo wireframe wc wo parent s2) ∧
  outcome line_geometry (triangle cs' diagram uc' uo' width parent' s1)
  = outcome line_geometry (triangle cs' diagram uc' uo' width parent' s2) ∧
  (∀ l o, s1 !! l = Some o →
     (cube ws hs ds planes uc0 uo0 vc wf parent0 s1).1 !! l = Some o ∧
     (volume cs ref segments uc uo wireframe wc wo parent s1).1 !! l = Some o ∧
     (triangle cs' diagram uc' uo' width parent' s1).1 !! l = Some o) ∧
  (∀ p, (p < length s1)%nat →
     children (cube ws hs ds planes uc0 uo0 vc wf parent0 s1).1 p
     = children s1 p
       ++ (if bool_decide (parent0 = Some p) then [S (length s1)] else []) ∧
     children (volume cs ref segments uc uo wireframe wc wo parent s1).1 p
     = children s1 p
       ++ (if bool_decide (parent = Some p) then [length s1] else []) ∧
     children (triangle cs' diagram uc' uo' width parent' s1).1 p
     = children s1 p
       ++ (if bool_decide (parent' = Some p)
           then match triangle_raises cs' diagram with
                | None => [S (length s1)]
                | Some _ => []
                end
           else [])).
Proof.
  intros Hwf1 Hwf2 Hpar1 Hpar2. split; [| split; [| split; [| split]]].
  - rewrite !RGB_identity_cube_run. cbn [outcome].
    by rewrite !identity_cube_geometry.
  - destruct (volume_raises cs ref segments uc wireframe wc) as [e |] eqn:Hraise.
    + destruct (volume_visual_outcome cs ref segments uc uo wireframe wc wo parent s1)
        as [t1 ->].
      destruct (volume_visual_outcome cs ref segments uc uo wireframe wc wo parent s2)
        as [t2 ->].
      by rewrite Hraise.
    + destruct (volume_returns_inv _ _ _ _ _ _ Hraise)
        as (c & vf & value & vw & Hcs & Hvf & Hval & Hvw).
      rewrite !(volume_visual_run _ _ _ _ _ _ _ _ _ _ c vf vw value) by assumption.
      cbn [outcome]. by rewrite !volume_geometry_run by assumption.
  - destruct (triangle_raises cs' diagram) as [e |] eqn:Hraise.
    + destruct (triangle_visual_outcome cs' diagram uc' uo' width parent' s1) as [t1 ->].
      destruct (triangle_visual_outcome cs' diagram uc' uo' width parent' s2) as [t2 ->].
      by rewrite Hraise.
    + destruct (triangle_returns_inv _ _ Hraise) as (c & d & f & Hcs & Hd & Hf & Hne).
      rewrite !(triangle_visual_run _ _ _ _ _ _ _ c d f) by assumption.
      cbn [outcome]. by rewrite !triangle_geometry_run.
  - intros l o Hl.
    rewrite RGB_identity_cube_run.
    destruct (volume_visual_outcome cs ref segments uc uo wireframe wc wo parent s1)
      as [t1 ->].
    destruct (triangle_visual_outcome cs' diagram uc' uo' width parent' s1) as [t2 ->].
    cbn [fst]. repeat split; by apply lookup_app_l_Some.
  - intros p Hp. split; [| split].
    + rewrite RGB_identity_cube_run. cbn [fst].
      rewrite children_old by exact Hp. f_equal.
      cbn [length seq List.filter lookup list_lookup].
      rewrite !has_parent_decide. cbn [parent_of identity_box box_parent].
      rewrite (bool_decide_eq_false_2 (None = Some p)) by discriminate.
      destruct (bool_decide (parent0 = Some p)); cbn [map]; [| reflexivity].
      f_equal. lia.
    + destruct (volume_visual_store cs ref segments uc uo wireframe wc wo parent s1)
        as (t & -> & Ht).
      rewrite children_attach; [reflexivity | exact Hp |].
      eapply Forall_impl; [exact Ht |]. intros o Ho. cbn beta in Ho.
      rewrite has_parent_decide. apply bool_decide_eq_false_2.
      destruct Ho as [-> | ->]; [discriminate |]. intros [= Heq]. lia.
    + destruct (triangle_visual_store cs' diagram uc' uo' width parent' s1)
        as (points & ->).
      destruct (triangle_raises cs' diagram) as [e |].
      * rewrite app_nil_r. destruct (bool_decide (parent' = Some p)); by rewrite app_nil_r.
      * rewrite children_old by exact Hp. f_equal.
        cbn [length seq List.filter lookup list_lookup].
        rewrite !has_parent_decide. cbn [parent_of triangle_line line_parent].
        rewrite (bool_decide_eq_false_2 (None = Some p)) by discriminate.
        destruct (bool_decide (parent' = Some p)); cbn [map]; [| reflexivity].
        f_equal. lia.
Qed.

End VisualsFacts.

(** * The theorems on the concrete instance *)

Lemma identity_cube_unit_box_witness :
  2 <= Concrete.prec ∧ Concrete.prec <= Concrete.emax ∧
  array_all (within (-1 # 2) (1 # 2))
    (position (Concrete.create_box 16 16 16 None).1.1) = true ∧
  ∃ s' box vertices,
    Concrete.identity_cube 16 16 16 None PyNone f1_0 true false None [] = (s', inr box) ∧
    box_positions s' box = Some vertices ∧
    vertices = amap (fun x => SFadd Concrete.prec Concrete.emax x (half Concrete.prec))
                 (position (Concrete.create_box 16 16 16 None).1.1) ∧
    array_all (within 0 1) vertices = true.
Proof.
  assert (H1 : 2 <= Concrete.prec) by (unfold Concrete.prec; lia).
  assert (H2 : Concrete.prec <= Concrete.emax)
    by (unfold Concrete.prec, Concrete.emax; lia).
  assert (H3 : array_all (within (-1 # 2) (1 # 2))
                 (position (Concrete.create_box 16 16 16 None).1.1) = true)
    by reflexivity.
  exact (conj H1 (conj H2 (conj H3
    (identity_cube_unit_box Concrete.prec Concrete.emax Concrete.create_box
       16 16 16 None PyNone f1_0 true false None [] H1 H2 H3)))).
Defined.

Lemma volume_vertices_two_stage_witness :
  ∃ value,
    Concrete.converted Concrete.Rec709 "CIE xyY" 16 = inr value ∧
    ∃ s' node cube_f,
      Concrete.volume_visual "Rec. 709" "CIE xyY" 16 PyNone f0_5 true PyNone f1_0 None []
      = (s', inr node) ∧
      head (children s' node) = Some cube_f ∧
      box_wireframe <$> deref_box s' cube_f = Some false ∧
      box_positions s' cube_f = Some (amap nan_to_zero value).
Proof.
  destruct (Concrete.converted Concrete.Rec709 "CIE xyY" 16) as [e | value] eqn:Hval.
  { vm_compute in Hval. discriminate Hval. }
  exists value. split; [reflexivity |].
  apply (volume_vertices_two_stage Concrete.prec Concrete.emax Concrete.create_box
           Concrete.get_RGB_colourspace Concrete.RGB_to_XYZ
           Concrete.XYZ_to_reference_colourspace
           "Rec. 709" "CIE xyY" 16 PyNone f0_5 true PyNone f1_0 None []
           Concrete.Rec709 value store_wf_nil (parent_in_None [])).
  - vm_compute. reflexivity.
  - reflexivity.
  - exact Hval.
Defined.

(** The conversion of the skewed colourspace to xyY divides by zero at
    the green corner: the vertex array of the cube keeps the infinities it
    gets there, while the NaN of the black corner is set to zero. *)
Lemma infinite_vertex_not_zeroed :
  let r := Concrete.volume_visual "Skewed" "CIE xyY" 16 PyNone f0_5 false
             PyNone f1_0 None [] in
  r.2 = inr 0%nat ∧
  children r.1 0%nat = [2%nat] ∧
  array_all isfinite <$> box_positions r.1 2%nat = Some false ∧
  box_positions r.1 2%nat ≫= (.!! 2%nat)
  = Some [S754_infinity true; S754_infinity false; f1_0] ∧
  box_positions r.1 2%nat ≫= (.!! 0%nat) = Some [fzero; fzero; fzero].
Proof. vm_compute. repeat split; reflexivity. Qed.

Lemma nan_entries_zeroed_witness :
  Concrete.volume_raises "Rec. 709" "CIE xyY" 16 PyNone true PyNone = None ∧
  Concrete.triangle_raises "Rec. 709" "CIE 1931" = None ∧
  (∃ s' node c value,
     Concrete.volume_visual "Rec. 709" "CIE xyY" 16 PyNone f0_5 true PyNone f1_0 None []
     = (s', inr node) ∧
     Concrete.get_RGB_colourspace "Rec. 709" = inr c ∧
     Concrete.converted c "CIE xyY" 16 = inr value ∧
     children s' node ≠ [] ∧
     Forall (λ cube, box_positions s' cube = Some (amap nan_to_zero value))
       (children s' node)) ∧
  (∃ s' line ln c d f,
     Concrete.triangle_visual "Rec. 709" "CIE 1931" PyNone f1_0 f4_0 None []
     = (s', inr line) ∧
     Concrete.get_RGB_colourspace "Rec. 709" = inr c ∧
     Concrete.CHROMATICITY_DIAGRAM_TRANSFORMATIONS !! "CIE 1931" = Some d ∧
     d !! "XYZ_to_ij" = Some f ∧
     deref_line s' line = Some ln ∧
     deref_array s' (line_pos ln)
     = Some (amap nan_to_zero (closed_path (Concrete.coordinates f c)))).
Proof.
  assert (H1 : Concrete.volume_raises "Rec. 709" "CIE xyY" 16 PyNone true PyNone = None)
    by (vm_compute; reflexivity).
  assert (H2 : Concrete.triangle_raises "Rec. 709" "CIE 1931" = None)
    by (vm_compute; reflexivity).
  pose proof (nan_entries_zeroed Concrete.prec Concrete.emax Concrete.create_box
                Concrete.get_RGB_colourspace Concrete.RGB_to_XYZ
                Concrete.XYZ_to_reference_colourspace Concrete.xy_to_XYZ
                Concrete.DEFAULT_PLOTTING_ILLUMINANT
                Concrete.CHROMATICITY_DIAGRAM_TRANSFORMATIONS
                "Rec. 709" "CIE xyY" 16 PyNone f0_5 true PyNone f1_0 None []
                "Rec. 709" "CIE 1931" PyNone f1_0 f4_0 None []
                store_wf_nil (parent_in_None []) H1 H2) as (Hv & Ht & _).
  exact (conj H1 (conj H2 (conj Hv Ht))).
Defined.

Lemma volume_cubes_share_vertices_witness :
  Concrete.volume_raises "Rec. 709" "CIE xyY" 16 PyNone true PyNone = None ∧
  ∃ s' node cube_f bf c value,
    Concrete.volume_visual "Rec. 709" "CIE xyY" 16 PyNone f0_5 true PyNone f1_0 None []
    = (s', inr node) ∧
    Concrete.get_RGB_colourspace "Rec. 709" = inr c ∧
    Concrete.converted c "CIE xyY" 16 = inr value ∧
    deref_box s' cube_f = Some bf ∧ box_wireframe bf = false ∧
    deref_array s' (box_vertices bf) = Some (amap nan_to_zero value) ∧
    ∃ cube_w bw,
      children s' node = [cube_f; cube_w] ∧
      deref_box s' cube_w = Some bw ∧ box_wireframe bw = true ∧
      box_vertices bw = box_vertices bf ∧
      box_positions s' cube_w = box_positions s' cube_f.
Proof.
  assert (H1 : Concrete.volume_raises "Rec. 709" "CIE xyY" 16 PyNone true PyNone = None)
    by (vm_compute; reflexivity).
  exact (conj H1
    (volume_cubes_share_vertices Concrete.prec Concrete.emax Concrete.create_box
       Concrete.get_RGB_colourspace Concrete.RGB_to_XYZ
       Concrete.XYZ_to_reference_colourspace
       "Rec. 709" "CIE xyY" 16 PyNone f0_5 true PyNone f1_0 None []
       store_wf_nil (parent_in_None []) H1)).
Defined.

Lemma vertex_colours_iff_colour_falsy_witness :
  Concrete.volume_raises "Rec. 709" "CIE XYZ" 16 PyNone true (PySeq [f0_8; f0_8; f0_8])
  = None ∧
  ∃ s' node cube_f bf,
    Concrete.volume_visual "Rec. 709" "CIE XYZ" 16 PyNone f0_5 true
      (PySeq [f0_8; f0_8; f0_8]) f1_0 None [] = (s', inr node) ∧
    children s' node !! 0%nat = Some cube_f ∧
    deref_box s' cube_f = Some bf ∧
    box_wireframe bf = false ∧
    box_uniform_colour bf = PyNone ∧
    (py_bool PyNone = inr false ∧
     box_vertex_colours bf = Some (color (Concrete.create_box 16 16 16 None).1.1) ∨
     py_bool PyNone = inr true ∧ box_vertex_colours bf = None) ∧
    (true = true →
     ∃ cube_w bw,
       children s' node = [cube_f; cube_w] ∧
       deref_box s' cube_w = Some bw ∧
       box_wireframe bw = true ∧
       box_uniform_colour bw = PySeq [f0_8; f0_8; f0_8] ∧
       (py_bool (PySeq [f0_8; f0_8; f0_8]) = inr false ∧
        box_vertex_colours bw = Some (color (Concrete.create_box 16 16 16 None).1.1) ∨
        py_bool (PySeq [f0_8; f0_8; f0_8]) = inr true ∧ box_vertex_colours bw = None)) ∧
    (true = false → children s' node = [cube_f]) ∧
    py_bool PyNone = inr false ∧
    py_bool (PySeq []) = inr false ∧
    (∀ x xs, py_bool (PySeq (x :: xs)) = inr true) ∧
    py_bool (PyArray []) = inr false ∧
    (∀ sign, py_bool (PyArray [S754_zero sign]) = inr false) ∧
    (∀ x, (∀ sign, x ≠ S754_zero sign) → py_bool (PyArray [x]) = inr true) ∧
    (∀ x y xs, py_bool (PyArray (x :: y :: xs)) = inl ValueError).
Proof.
  assert (H1 : Concrete.volume_raises "Rec. 709" "CIE XYZ" 16 PyNone true
                 (PySeq [f0_8; f0_8; f0_8]) = None)
    by (vm_compute; reflexivity).
  exact (conj H1
    (vertex_colours_iff_colour_falsy Concrete.prec Concrete.emax Concrete.create_box
       Concrete.get_RGB_colourspace Concrete.RGB_to_XYZ
       Concrete.XYZ_to_reference_colourspace
       "Rec. 709" "CIE XYZ" 16 PyNone f0_5 true (PySeq [f0_8; f0_8; f0_8]) f1_0 None []
       store_wf_nil (parent_in_None []) H1)).
Defined.

Lemma triangle_closed_polygon_witness :
  let ij := Concrete.XYZ_to_xy (Concrete.xy_to_XYZ (primaries Concrete.Rec709))
              Concrete.DEFAULT_PLOTTING_ILLUMINANT in
  length ij = 3%nat ∧
  ∃ s' line ln stacked points,
    Concrete.triangle_visual "Rec. 709" "CIE 1931" PyNone f1_0 f4_0 None []
    = (s', inr line) ∧
    deref_line s' line = Some ln ∧
    deref_array s' (line_pos ln) = Some points ∧
    points = amap nan_to_zero stacked ∧
    length stacked = 5%nat ∧
    stacked !! 0%nat = ij !! 2%nat ∧
    (∀ k, (k < 3)%nat → stacked !! S k = ij !! k) ∧
    stacked !! 4%nat = ij !! 0%nat ∧
    length points = 5%nat ∧
    points !! 0%nat = points !! 3%nat ∧
    points !! 4%nat = points !! 1%nat.
Proof.
  assert (H1 : length (Concrete.XYZ_to_xy (Concrete.xy_to_XYZ (primaries Concrete.Rec709))
                         Concrete.DEFAULT_PLOTTING_ILLUMINANT) = 3%nat)
    by reflexivity.
  exact (conj H1
    (triangle_closed_polygon Concrete.get_RGB_colourspace Concrete.xy_to_XYZ
       Concrete.DEFAULT_PLOTTING_ILLUMINANT Concrete.CHROMATICITY_DIAGRAM_TRANSFORMATIONS
       "Rec. 709" "CIE 1931" PyNone f1_0 f4_0 None []
       Concrete.Rec709 {[ "XYZ_to_ij" := Concrete.XYZ_to_xy ]} Concrete.XYZ_to_xy 3%nat
       eq_refl eq_refl eq_refl H1 (Nat.lt_0_succ 2))).
Defined.

Lemma triangle_line_colour_witness :
  Concrete.triangle_raises "Rec. 709" "CIE 1931" = None ∧
  ∃ s' line ln rgba,
    Concrete.triangle_visual "Rec. 709" "CIE 1931" PyNone f1_0 f4_0 None []
    = (s', inr line) ∧
    deref_line s' line = Some ln ∧
    line_color ln = [rgba] ∧
    length rgba = 4%nat ∧
    (PyNone = PyNone → rgba = [f0_8; f0_8; f0_8; f1_0]) ∧
    (PyNone ≠ PyNone → rgba = colour_elements PyNone ++ [f1_0]).
Proof.
  assert (H1 : Concrete.triangle_raises "Rec. 709" "CIE 1931" = None)
    by (vm_compute; reflexivity).
  exact (conj H1
    (triangle_line_colour Concrete.get_RGB_colourspace Concrete.xy_to_XYZ
       Concrete.DEFAULT_PLOTTING_ILLUMINANT Concrete.CHROMATICITY_DIAGRAM_TRANSFORMATIONS
       "Rec. 709" "CIE 1931" PyNone f1_0 f4_0 None [] H1 (or_introl eq_refl))).
Defined.

Lemma lookup_failures_propagate_witness :
  Concrete.get_RGB_colourspace "Rec. 907" = inl (KeyError "Rec. 907") ∧
  Concrete.CHROMATICITY_DIAGRAM_TRANSFORMATIONS !! "CIE 1931 UCS" = None ∧
  (Concrete.volume_visual "Rec. 907" "CIE xyY" 16 PyNone f0_5 true PyNone f1_0 None []).2
  = inl (KeyError "Rec. 907") ∧
  (∀ dg, (Concrete.triangle_visual "Rec. 907" dg PyNone f1_0 f4_0 None []).2
         = inl (KeyError "Rec. 907")) ∧
  (Concrete.triangle_visual "Rec. 709" "CIE 1931 UCS" PyNone f1_0 f4_0 None []).2
  = inl (KeyError "CIE 1931 UCS") ∧
  (∀ cs'', ∃ e',
     (Concrete.triangle_visual cs'' "CIE 1931 UCS" PyNone f1_0 f4_0 None []).2 = inl e').
Proof.
  assert (H1 : Concrete.get_RGB_colourspace "Rec. 907" = inl (KeyError "Rec. 907"))
    by (vm_compute; reflexivity).
  assert (H2 : Concrete.CHROMATICITY_DIAGRAM_TRANSFORMATIONS !! "CIE 1931 UCS" = None)
    by (vm_compute; reflexivity).
  assert (H3 : Concrete.get_RGB_colourspace "Rec. 709" = inr Concrete.Rec709)
    by (vm_compute; reflexivity).
  exact (conj H1 (conj H2
    (lookup_failures_propagate Concrete.prec Concrete.emax Concrete.create_box
       Concrete.get_RGB_colourspace Concrete.RGB_to_XYZ
       Concrete.XYZ_to_reference_colourspace Concrete.xy_to_XYZ
       Concrete.DEFAULT_PLOTTING_ILLUMINANT
       Concrete.CHROMATICITY_DIAGRAM_TRANSFORMATIONS
       "Rec. 907" (KeyError "Rec. 907") "CIE 1931 UCS" "Rec. 709" Concrete.Rec709
       "CIE xyY" 16 PyNone f0_5 true PyNone f1_0 None []
       PyNone f1_0 f4_0 None [] H1 H2 H3))).
Defined.

Lemma constructors_return_scene_nodes_witness :
  Concrete.volume_raises "Rec. 709" "CIE xyY" 16 PyNone true PyNone = None ∧
  Concrete.triangle_raises "Rec. 709" "CIE 1931" = None ∧
  (∃ s' node,
     Concrete.volume_visual "Rec. 709" "CIE xyY" 16 PyNone f0_5 true PyNone f1_0
       (Some 0%nat) [NodeObj None] = (s', inr node) ∧
     s' !! node = Some (NodeObj (Some 0%nat)) ∧
     children s' node ≠ [] ∧
     Forall (λ child, ∃ b, s' !! child = Some (BoxObj b) ∧ box_parent b = Some node)
       (children s' node)) ∧
  (∃ s' line ln,
     Concrete.triangle_visual "Rec. 709" "CIE 1931" PyNone f1_0 f4_0
       (Some 0%nat) [NodeObj None] = (s', inr line) ∧
     s' !! line = Some (LineObj ln) ∧
     line_parent ln = Some 0%nat).
Proof.
  assert (H1 : Concrete.volume_raises "Rec. 709" "CIE xyY" 16 PyNone true PyNone = None)
    by (vm_compute; reflexivity).
  assert (H2 : Concrete.triangle_raises "Rec. 709" "CIE 1931" = None)
    by (vm_compute; reflexivity).
  assert (H3 : parent_in [NodeObj None] (Some 0%nat)).
  { intros p Hp. injection Hp as <-. cbn. lia. }
  exact (conj H1 (conj H2
    (constructors_return_scene_nodes Concrete.prec Concrete.emax Concrete.create_box
       Concrete.get_RGB_colourspace Concrete.RGB_to_XYZ
       Concrete.XYZ_to_reference_colourspace Concrete.xy_to_XYZ
       Concrete.DEFAULT_PLOTTING_ILLUMINANT
       Concrete.CHROMATICITY_DIAGRAM_TRANSFORMATIONS
       "Rec. 709" "CIE xyY" 16 PyNone f0_5 true PyNone f1_0 (Some 0%nat) [NodeObj None]
       "Rec. 709" "CIE 1931" PyNone f1_0 f4_0 (Some 0%nat) [NodeObj None]
       store_wf_root H3 H1 H2))).
Defined.

(** * The further properties on the concrete instances *)

Lemma volume_failed_lookup_leaves_node_witness :
  Concrete.get_RGB_colourspace "Rec. 907" = inl (KeyError "Rec. 907") ∧
  Concrete.volume_visual "Rec. 907" "CIE xyY" 16 PyNone f0_5 true PyNone f1_0
    (Some 0%nat) [NodeObj None]
  = ([NodeObj None; NodeObj (Some 0%nat)], inl (KeyError "Rec. 907")) ∧
  children [NodeObj None; NodeObj (Some 0%nat)] 0%nat
  = children [NodeObj None] 0%nat ++ [1%nat].
Proof.
  assert (H1 : Concrete.get_RGB_colourspace "Rec. 907" = inl (KeyError "Rec. 907"))
    by (vm_compute; reflexivity).
  destruct (volume_failed_lookup_leaves_node Concrete.prec Concrete.emax
              Concrete.create_box Concrete.get_RGB_colourspace Concrete.RGB_to_XYZ
              Concrete.XYZ_to_reference_colourspace
              "Rec. 907" "CIE xyY" 16 PyNone f0_5 true PyNone f1_0 (Some 0%nat)
              [NodeObj None] (KeyError "Rec. 907") H1) as [Hrun Hchildren].
  exact (conj H1 (conj Hrun (Hchildren 0%nat eq_refl (Nat.lt_0_succ 0)))).
Defined.

Lemma volume_failed_conversion_leaves_cube_witness :
  Concrete.converted Concrete.Rec709 "CIE Lab" 16 = inl ValueError ∧
  ∃ s' cube,
    Concrete.volume_visual "Rec. 709" "CIE Lab" 16 PyNone f0_5 true PyNone f1_0 None []
    = (s', inl ValueError) ∧
    length s' = 3%nat ∧
    s' !! 0%nat = Some (NodeObj None) ∧
    children s' 0%nat = [cube] ∧
    box_positions s' cube
    = Some (identity_vertices Concrete.prec Concrete.emax Concrete.create_box 16 16 16 None).
Proof.
  assert (H1 : Concrete.converted Concrete.Rec709 "CIE Lab" 16 = inl ValueError)
    by (vm_compute; reflexivity).
  exact (conj H1
    (volume_failed_conversion_leaves_cube Concrete.prec Concrete.emax
       Concrete.create_box Concrete.get_RGB_colourspace Concrete.RGB_to_XYZ
       Concrete.XYZ_to_reference_colourspace
       "Rec. 709" "CIE Lab" 16 PyNone f0_5 true PyNone f1_0 None []
       Concrete.Rec709 true ValueError
       store_wf_nil (parent_in_None []) eq_refl eq_refl H1)).
Defined.

Lemma volume_array_colour_raises_witness :
  Concrete.get_RGB_colourspace "Rec. 709" = inr Concrete.Rec709 ∧
  Concrete.volume_visual "Rec. 709" "CIE xyY" 16 (PyArray [f0_8; f0_8; f0_8]) f0_5
    true PyNone f1_0 None []
  = ([NodeObj None], inl ValueError).
Proof.
  assert (H1 : Concrete.get_RGB_colourspace "Rec. 709" = inr Concrete.Rec709)
    by (vm_compute; reflexivity).
  exact (conj H1
    (volume_array_colour_raises Concrete.prec Concrete.emax
       Concrete.create_box Concrete.get_RGB_colourspace Concrete.RGB_to_XYZ
       Concrete.XYZ_to_reference_colourspace
       "Rec. 709" "CIE xyY" 16 f0_8 f0_8 [f0_8] f0_5 true PyNone f1_0 None []
       Concrete.Rec709 H1)).
Defined.

Lemma volume_array_wireframe_colour_raises_witness :
  ∃ value,
    Concrete.converted Concrete.Rec709 "CIE xyY" 16 = inr value ∧
    ∃ s' cube,
      Concrete.volume_visual "Rec. 709" "CIE xyY" 16 PyNone f0_5 true
        (PyArray [f0_8; f0_8; f0_8]) f1_0 None []
      = (s', inl ValueError) ∧
      children s' 0%nat = [cube] ∧
      box_positions s' cube = Some (amap nan_to_zero value).
Proof.
  destruct (Concrete.converted Concrete.Rec709 "CIE xyY" 16) as [e | value] eqn:Hval.
  { vm_compute in Hval. discriminate Hval. }
  exists value. split; [reflexivity |].
  apply (volume_array_wireframe_colour_raises Concrete.prec Concrete.emax
           Concrete.create_box Concrete.get_RGB_colourspace Concrete.RGB_to_XYZ
           Concrete.XYZ_to_reference_colourspace
           "Rec. 709" "CIE xyY" 16 PyNone f0_5 f0_8 f0_8 [f0_8] f1_0 None []
           Concrete.Rec709 true value store_wf_nil (parent_in_None [])).
  - reflexivity.
  - reflexivity.
  - exact Hval.
Defined.

Lemma volume_ignores_wireframe_arguments_witness :
  Concrete.volume_raises "Rec. 709" "CIE xyY" 16 PyNone false PyNone = None ∧
  ∃ s' node cube,
    children s' node = [cube] ∧
    ∀ wc wo,
      Concrete.volume_visual "Rec. 709" "CIE xyY" 16 PyNone f0_5 false wc wo None []
      = (s', inr node).
Proof.
  assert (H1 : Concrete.volume_raises "Rec. 709" "CIE xyY" 16 PyNone false PyNone = None)
    by (vm_compute; reflexivity).
  exact (conj H1
    (volume_ignores_wireframe_arguments Concrete.prec Concrete.emax
       Concrete.create_box Concrete.get_RGB_colourspace Concrete.RGB_to_XYZ
       Concrete.XYZ_to_reference_colourspace
       "Rec. 709" "CIE xyY" 16 PyNone f0_5 None []
       store_wf_nil (parent_in_None []) H1)).
Defined.

Lemma triangle_failure_leaves_store_witness :
  Concrete.triangle_visual "Rec. 709" "CIE 1931 UCS" PyNone f1_0 f4_0 (Some 0%nat)
    [NodeObj None]
  = ([NodeObj None], inl (KeyError "CIE 1931 UCS")) ∧
  [NodeObj None] = [NodeObj None].
Proof.
  assert (H1 : Concrete.triangle_visual "Rec. 709" "CIE 1931 UCS" PyNone f1_0 f4_0
                 (Some 0%nat) [NodeObj None]
               = ([NodeObj None], inl (KeyError "CIE 1931 UCS")))
    by (vm_compute; reflexivity).
  exact (conj H1
    (triangle_failure_leaves_store Concrete.get_RGB_colourspace Concrete.xy_to_XYZ
       Concrete.DEFAULT_PLOTTING_ILLUMINANT Concrete.CHROMATICITY_DIAGRAM_TRANSFORMATIONS
       "Rec. 709" "CIE 1931 UCS" PyNone f1_0 f4_0 (Some 0%nat)
       [NodeObj None] [NodeObj None] (KeyError "CIE 1931 UCS") H1)).
Defined.

Lemma triangle_missing_transformation_witness :
  Degenerate.get_RGB_colourspace "Rec. 709" = inr Concrete.Rec709 ∧
  Degenerate.CHROMATICITY_DIAGRAM_TRANSFORMATIONS !! "CIE 1960 UCS"
  = Some {[ "ij_to_XYZ" := Concrete.XYZ_to_xy ]} ∧
  Degenerate.triangle_visual "Rec. 709" "CIE 1960 UCS" PyNone f1_0 f4_0 None []
  = ([], inl (KeyError "XYZ_to_ij")).
Proof.
  assert (H1 : Degenerate.get_RGB_colourspace "Rec. 709" = inr Concrete.Rec709)
    by (vm_compute; reflexivity).
  assert (H2 : Degenerate.CHROMATICITY_DIAGRAM_TRANSFORMATIONS !! "CIE 1960 UCS"
               = Some {[ "ij_to_XYZ" := Concrete.XYZ_to_xy ]})
    by reflexivity.
  exact (conj H1 (conj H2
    (triangle_missing_transformation Degenerate.get_RGB_colourspace Concrete.xy_to_XYZ
       Concrete.DEFAULT_PLOTTING_ILLUMINANT Degenerate.CHROMATICITY_DIAGRAM_TRANSFORMATIONS
       "Rec. 709" "CIE 1960 UCS" PyNone f1_0 f4_0 None []
       Concrete.Rec709 {[ "ij_to_XYZ" := Concrete.XYZ_to_xy ]} H1 H2 eq_refl))).
Defined.

Lemma triangle_no_primaries_witness :
  Degenerate.get_RGB_colourspace "Blank" = inr Degenerate.Blank ∧
  Concrete.XYZ_to_xy (Concrete.xy_to_XYZ (primaries Degenerate.Blank))
    Concrete.DEFAULT_PLOTTING_ILLUMINANT = [] ∧
  Degenerate.triangle_visual "Blank" "CIE 1931" PyNone f1_0 f4_0 None []
  = ([], inl IndexError).
Proof.
  assert (H1 : Degenerate.get_RGB_colourspace "Blank" = inr Degenerate.Blank)
    by (vm_compute; reflexivity).
  assert (H2 : Concrete.XYZ_to_xy (Concrete.xy_to_XYZ (primaries Degenerate.Blank))
                 Concrete.DEFAULT_PLOTTING_ILLUMINANT = [])
    by reflexivity.
  exact (conj H1 (conj H2
    (triangle_no_primaries Degenerate.get_RGB_colourspace Concrete.xy_to_XYZ
       Concrete.DEFAULT_PLOTTING_ILLUMINANT Degenerate.CHROMATICITY_DIAGRAM_TRANSFORMATIONS
       "Blank" "CIE 1931" PyNone f1_0 f4_0 None []
       Degenerate.Blank {[ "XYZ_to_ij" := Concrete.XYZ_to_xy ]} Concrete.XYZ_to_xy
       H1 eq_refl eq_refl H2))).
Defined.

Lemma volume_cubes_move_together_witness :
  Concrete.volume_raises "Rec. 709" "CIE xyY" 16 PyNone true PyNone = None ∧
  ∃ s' node cube_f cube_w vertices s'',
    Concrete.volume_visual "Rec. 709" "CIE xyY" 16 PyNone f0_5 true PyNone f1_0 None []
    = (s', inr node) ∧
    children s' node = [cube_f; cube_w] ∧
    box_positions s' cube_f = Some vertices ∧
    box_positions s' cube_w = Some vertices ∧
    shift_vertices Concrete.prec Concrete.emax cube_f (half Concrete.prec) s'
    = (s'', inr tt) ∧
    box_positions s'' cube_f
    = Some (np_add_scalar Concrete.prec Concrete.emax (half Concrete.prec) vertices) ∧
    box_positions s'' cube_w
    = Some (np_add_scalar Concrete.prec Concrete.emax (half Concrete.prec) vertices).
Proof.
  assert (H1 : Concrete.volume_raises "Rec. 709" "CIE xyY" 16 PyNone true PyNone = None)
    by (vm_compute; reflexivity).
  exact (conj H1
    (volume_cubes_move_together Concrete.prec Concrete.emax
       Concrete.create_box Concrete.get_RGB_colourspace Concrete.RGB_to_XYZ
       Concrete.XYZ_to_reference_colourspace
       "Rec. 709" "CIE xyY" 16 PyNone f0_5 PyNone f1_0 None [] (half Concrete.prec)
       store_wf_nil (parent_in_None []) H1)).
Defined.

Lemma identity_cube_keeps_non_finite_witness :
  position (Degenerate.create_box 0 16 16 None).1.1 !! 1%nat
  = Some [S754_infinity false; half Concrete.prec; S754_nan] ∧
  ∃ s' box vertices r',
    Degenerate.identity_cube 0 16 16 None PyNone f1_0 true false None []
    = (s', inr box) ∧
    box_positions s' box = Some vertices ∧
    vertices !! 1%nat = Some r' ∧ r' !! 2%nat = Some S754_nan.
Proof.
  assert (H1 : position (Degenerate.create_box 0 16 16 None).1.1 !! 1%nat
               = Some [S754_infinity false; half Concrete.prec; S754_nan])
    by reflexivity.
  exact (conj H1
    (identity_cube_keeps_non_finite Concrete.prec Concrete.emax Degenerate.create_box
       0 16 16 None PyNone f1_0 true false None [] 1%nat 2%nat
       [S754_infinity false; half Concrete.prec; S754_nan] S754_nan
       H1 eq_refl eq_refl)).
Defined.

Lemma volume_vertices_exact_without_nan_witness :
  ∃ value,
    Concrete.converted Concrete.Rec709 "CIE XYZ" 16 = inr value ∧
    array_all (λ x, negb (isnan x)) value = true ∧
    ∃ s' node,
      Concrete.volume_visual "Rec. 709" "CIE XYZ" 16 PyNone f0_5 true PyNone f1_0 None []
      = (s', inr node) ∧
      children s' node ≠ [] ∧
      Forall (λ cube, box_positions s' cube = Some value) (children s' node).
Proof.
  destruct (Concrete.converted Concrete.Rec709 "CIE XYZ" 16) as [e | value] eqn:Hval.
  { vm_compute in Hval. discriminate Hval. }
  assert (Hnan : array_all (λ x, negb (isnan x)) value = true).
  { vm_compute in Hval. injection Hval as <-. vm_compute. reflexivity. }
  exists value. split; [reflexivity |]. split; [exact Hnan |].
  apply (volume_vertices_exact_without_nan Concrete.prec Concrete.emax
           Concrete.create_box Concrete.get_RGB_colourspace Concrete.RGB_to_XYZ
           Concrete.XYZ_to_reference_colourspace
           "Rec. 709" "CIE XYZ" 16 PyNone f0_5 true PyNone f1_0 None []
           Concrete.Rec709 value store_wf_nil (parent_in_None [])).
  - vm_compute. reflexivity.
  - reflexivity.
  - exact Hval.
  - exact Hnan.
Defined.

Lemma triangle_colour_appends_opacity_witness :
  Concrete.triangle_raises "Rec. 709" "CIE 1931" = None ∧
  ∃ s' line ln rgba,
    Concrete.triangle_visual "Rec. 709" "CIE 1931" (PySeq [f1_0; fzero; fzero; f0_5])
      f1_0 f4_0 None [] = (s', inr line) ∧
    deref_line s' line = Some ln ∧
    line_color ln = [rgba] ∧
    rgba = [f1_0; fzero; fzero; f0_5] ++ [f1_0] ∧
    length rgba = 5%nat ∧
    last rgba = Some f1_0.
Proof.
  assert (H1 : Concrete.triangle_raises "Rec. 709" "CIE 1931" = None)
    by (vm_compute; reflexivity).
  assert (H2 : PySeq [f1_0; fzero; fzero; f0_5] ≠ PyNone) by discriminate.
  exact (conj H1
    (triangle_colour_appends_opacity Concrete.get_RGB_colourspace Concrete.xy_to_XYZ
       Concrete.DEFAULT_PLOTTING_ILLUMINANT Concrete.CHROMATICITY_DIAGRAM_TRANSFORMATIONS
       "Rec. 709" "CIE 1931" (PySeq [f1_0; fzero; fzero; f0_5]) f1_0 f4_0 None []
       H1 H2)).
Defined.

Lemma triangle_points_dimension_witness :
  Forall (λ r : list float, length r = 2%nat)
    (Concrete.XYZ_to_xy (Concrete.xy_to_XYZ (primaries Concrete.Rec709))
       Concrete.DEFAULT_PLOTTING_ILLUMINANT) ∧
  ∃ s' line ln points,
    Concrete.triangle_visual "Rec. 709" "CIE 1931" PyNone f1_0 f4_0 None []
    = (s', inr line) ∧
    deref_line s' line = Some ln ∧
    deref_array s' (line_pos ln) = Some points ∧
    Forall (λ r : list float, length r = 2%nat) points.
Proof.
  assert (H1 : Forall (λ r : list float, length r = 2%nat)
                 (Concrete.XYZ_to_xy (Concrete.xy_to_XYZ (primaries Concrete.Rec709))
                    Concrete.DEFAULT_PLOTTING_ILLUMINANT)).
  { vm_compute. repeat constructor. }
  assert (H2 : Concrete.XYZ_to_xy (Concrete.xy_to_XYZ (primaries Concrete.Rec709))
                 Concrete.DEFAULT_PLOTTING_ILLUMINANT ≠ []).
  { vm_compute. discriminate. }
  exact (conj H1
    (triangle_points_dimension Concrete.get_RGB_colourspace Concrete.xy_to_XYZ
       Concrete.DEFAULT_PLOTTING_ILLUMINANT Concrete.CHROMATICITY_DIAGRAM_TRANSFORMATIONS
       "Rec. 709" "CIE 1931" PyNone f1_0 f4_0 None []
       Concrete.Rec709 {[ "XYZ_to_ij" := Concrete.XYZ_to_xy ]} Concrete.XYZ_to_xy 2%nat
       eq_refl eq_refl eq_refl H2 H1)).
Defined.

(** * What a call changes in the scene graph *)

(** A call with a parent changes the children of that parent: a triangle
    visual gives the root its line for child, a second call with the same
    arguments a second one, and a volume visual whose colourspace is not
    found still leaves its node under the root. *)
Lemma attachment_changes_parent :
  let s : store := [NodeObj None] in
  let r1 := Concrete.triangle_visual "Rec. 709" "CIE 1931" PyNone f1_0 f4_0
              (Some 0%nat) s in
  let r2 := Concrete.triangle_visual "Rec. 709" "CIE 1931" PyNone f1_0 f4_0
              (Some 0%nat) r1.1 in
  let r3 := Concrete.volume_visual "Rec. 907" "CIE xyY" 16 PyNone f0_5 true PyNone
              f1_0 (Some 0%nat) s in
  children s 0%nat = [] ∧
  r1.2 = inr 2%nat ∧ children r1.1 0%nat = [2%nat] ∧
  r2.2 = inr 4%nat ∧ children r2.1 0%nat = [2%nat; 4%nat] ∧
  r3.2 = inl (KeyError "Rec. 907") ∧ children r3.1 0%nat = [1%nat].
Proof. vm_compute. repeat split; reflexivity. Qed.

Lemma visuals_deterministic_witness :
  let s1 : store := [NodeObj None] in
  let s2 : store := [NodeObj None; NodeObj (Some 0%nat)] in
  outcome box_geometry
    (Concrete.identity_cube 16 16 16 None PyNone f1_0 true false (Some 0%nat) s1)
  = outcome box_geometry
      (Concrete.identity_cube 16 16 16 None PyNone f1_0 true false (Some 0%nat) s2) ∧
  outcome volume_geometry
    (Concrete.volume_visual "Rec. 709" "CIE xyY" 16 PyNone f0_5 true PyNone f1_0
       (Some 0%nat) s1)
  = outcome volume_geometry
      (Concrete.volume_visual "Rec. 709" "CIE xyY" 16 PyNone f0_5 true PyNone f1_0
         (Some 0%nat) s2) ∧
  outcome line_geometry
    (Concrete.triangle_visual "Rec. 709" "CIE 1931" PyNone f1_0 f4_0 (Some 0%nat) s1)
  = outcome line_geometry
      (Concrete.triangle_visual "Rec. 709" "CIE 1931" PyNone f1_0 f4_0 (Some 0%nat) s2) ∧
  children
    (Concrete.identity_cube 16 16 16 None PyNone f1_0 true false (Some 0%nat) s1).1 0%nat
  = children s1 0%nat ++ [2%nat] ∧
  children
    (Concrete.volume_visual "Rec. 709" "CIE xyY" 16 PyNone f0_5 true PyNone f1_0
       (Some 0%nat) s1).1 0%nat
  = children s1 0%nat ++ [1%nat] ∧
  children
    (Concrete.triangle_visual "Rec. 709" "CIE 1931" PyNone f1_0 f4_0 (Some 0%nat) s1).1
    0%nat
  = children s1 0%nat ++ [2%nat].
Proof.
  assert (Hwf2 : store_wf [NodeObj None; NodeObj (Some 0%nat)]).
  { intros l o p Hl Hp. destruct l as [| [| l]]; cbn in Hl.
    - injection Hl as <-. discriminate Hp.
    - injection Hl as <-. injection Hp as <-. cbn. lia.
    - discriminate Hl. }
  assert (Hp1 : parent_in [NodeObj None] (Some 0%nat)).
  { intros p Hp. injection Hp as <-. cbn. lia. }
  assert (Hp2 : parent_in [NodeObj None; NodeObj (Some 0%nat)] (Some 0%nat)).
  { intros p Hp. injection Hp as <-. cbn. lia. }
  pose proof (visuals_deterministic Concrete.prec Concrete.emax Concrete.create_box
                Concrete.get_RGB_colourspace Concrete.RGB_to_XYZ
                Concrete.XYZ_to_reference_colourspace Concrete.xy_to_XYZ
                Concrete.DEFAULT_PLOTTING_ILLUMINANT
                Concrete.CHROMATICITY_DIAGRAM_TRANSFORMATIONS
                16 16 16 None PyNone f1_0 true false (Some 0%nat)
                "Rec. 709" "CIE xyY" 16 PyNone f0_5 true PyNone f1_0 (Some 0%nat)
                "Rec. 709" "CIE 1931" PyNone f1_0 f4_0 (Some 0%nat)
                [NodeObj None] [NodeObj None; NodeObj (Some 0%nat)]
                store_wf_root Hwf2 Hp1 Hp2)
    as (Hc & Hv & Ht & _ & Hch).
  destruct (Hch 0%nat (Nat.lt_0_succ 0)) as (Hch1 & Hch2 & Hch3).
  exact (conj Hc (conj Hv (conj Ht (conj Hch1 (conj Hch2 Hch3))))).
Defined.
